(** * Hotel booking server: overlap predicate, availability search,
      conflict-checked booking creation and cancellation.

    Shallow embedding of [src/index.js].  That file holds two renditions of
    the same server: one over better-sqlite3 (synchronous handlers, module
    [Sqlite] below) and one over mongoose (asynchronous handlers with
    [await] points, module [Mongo] below).

    Conventions.
    - A JavaScript string is a [string]; [<=] on two strings is the
      lexicographic comparison [String.leb].  (JavaScript compares UTF-16
      code units and SQLite/MongoDB compare bytes; the three agree on the
      ASCII text that ISO dates are made of.)
    - A request field is an [option]: [None] stands for an absent field
      ([undefined]).  Text fields carry strings and [roomId] carries a
      number, as the client sends them.
    - The clock ([new Date().toISOString()]) is an explicit argument. *)

From Stdlib Require Import ZArith List String Ascii Bool Lia.
Import ListNotations.

Local Open Scope string_scope.
Local Open Scope Z_scope.
Local Open Scope bool_scope.
Local Open Scope list_scope.

(** ** JavaScript values used by the handlers *)

(** [!x] for a string-valued field: absent or empty. *)
Definition falsyS (x : option string) : bool :=
  match x with
  | None => true
  | Some s => String.eqb s ""
  end.

(** [!x] for a number-valued field: absent or zero. *)
Definition falsyZ (x : option Z) : bool :=
  match x with
  | None => true
  | Some n => n =? 0
  end.

(** [x || d] for a string-valued field. *)
Definition orS (x : option string) (d : string) : string :=
  match x with
  | None => d
  | Some s => if String.eqb s "" then d else s
  end.

(** The value of a field once it is known to be truthy. *)
Definition valS (x : option string) : string := orS x "".
Definition valZ (x : option Z) : Z :=
  match x with
  | None => 0
  | Some n => n
  end.

(** *** [parseInt(s, 10)]

    Leading white space is skipped, one sign is accepted, then the longest
    run of decimal digits is read; no digit at all gives [NaN], here [None].
    The integer is kept exact (the rounding of a double above 2^53 is not
    modelled) and only ASCII white space is recognised. *)

Definition isWhiteSpace (c : ascii) : bool :=
  let n := N_of_ascii c in
  (n =? 9)%N || (n =? 10)%N || (n =? 11)%N || (n =? 12)%N || (n =? 13)%N
  || (n =? 32)%N.

Fixpoint trimStart (s : string) : string :=
  match s with
  | String c s' => if isWhiteSpace c then trimStart s' else s
  | EmptyString => s
  end.

Definition digitOf (c : ascii) : option Z :=
  let n := N_of_ascii c in
  if (48 <=? n)%N && (n <=? 57)%N then Some (Z.of_N n - 48) else None.

Fixpoint readDigits (acc : Z) (seen : bool) (s : string) : option Z :=
  match s with
  | String c s' =>
      match digitOf c with
      | Some d => readDigits (10 * acc + d) true s'
      | None => if seen then Some acc else None
      end
  | EmptyString => if seen then Some acc else None
  end.

Definition parseInt (s : string) : option Z :=
  match trimStart s with
  | String "-"%char s' => option_map Z.opp (readDigits 0 false s')
  | String "+"%char s' => readDigits 0 false s'
  | s' => readDigits 0 false s'
  end.

(** ** The overlap predicate (identical in both renditions)

<<
function datesOverlap(aStart, aEnd, bStart, bEnd) {
  return !(aEnd <= bStart || bEnd <= aStart);
}
>> *)
Definition datesOverlap (aStart aEnd bStart bEnd : string) : bool :=
  negb (String.leb aEnd bStart || String.leb bEnd aStart).

(** The lexicographic order in the words of the specification: a string is
    below another when it is a prefix of it, or when at the first position
    where they differ its character is the smaller one. *)
Inductive lex_le : string -> string -> Prop :=
| lex_le_empty : forall t, lex_le EmptyString t
| lex_le_less : forall c d s t,
    (N_of_ascii c < N_of_ascii d)%N -> lex_le (String c s) (String d t)
| lex_le_same : forall c s t,
    lex_le s t -> lex_le (String c s) (String c t).

(** A relation holds between every element of a list and every later one. *)
Fixpoint pairwise {A : Type} (rel : A -> A -> bool) (l : list A) : bool :=
  match l with
  | [] => true
  | a :: l' => forallb (rel a) l' && pairwise rel l'
  end.

(** HTTP outcome of a handler: the JSON body of a 200 answer, or a status
    code with its [error] text. *)
Inductive response (A : Type) : Type :=
| Ok (body : A)
| Error (status : Z) (error : string).
Arguments Ok {A} body.
Arguments Error {A} status error.

(** The error kinds of the specification, by status code. *)
Definition isValidation {A} (r : response A) : bool :=
  match r with Error 400 _ => true | _ => false end.
Definition isNotFound {A} (r : response A) : bool :=
  match r with Error 404 _ => true | _ => false end.
Definition isConflict {A} (r : response A) : bool :=
  match r with Error 409 _ => true | _ => false end.
Definition isOk {A} (r : response A) : bool :=
  match r with Ok _ => true | _ => false end.
(** An exception that no handler catches: the server answers 500. *)
Definition isServerError {A} (r : response A) : bool :=
  match r with Error 500 _ => true | _ => false end.

(** ** The better-sqlite3 rendition (first document of [src/index.js]) *)
Module Sqlite.

(** Rows of the three tables, column for column.  [pricePerNight] is a
    REAL column; the seeded prices are whole numbers and no handler
    computes with them.  A nullable TEXT column is an [option]. *)
Module User.
Record t := mk {
  id : Z; name : string; email : string;
  passwordHash : string; createdAt : string }.
End User.

Module Room.
Record t := mk {
  id : Z; name : string; description : string;
  pricePerNight : Z; capacity : Z; image : option string }.
End Room.

Module Booking.
Record t := mk {
  id : Z; userId : Z; roomId : Z;
  checkIn : string; checkOut : string;
  fullName : string; email : string; phone : string;
  specialRequests : option string;
  status : string; createdAt : string }.

(** [UPDATE bookings SET status = ...] on one row. *)
Definition setStatus (st : string) (b : t) : t :=
  mk (id b) (userId b) (roomId b) (checkIn b) (checkOut b)
     (fullName b) (email b) (phone b) (specialRequests b) st (createdAt b).
End Booking.

(** The database file: the tables in rowid order, and the AUTOINCREMENT
    counter of [bookings] (the largest id handed out so far). *)
Record Database := mkDb {
  users : list User.t;
  rooms : list Room.t;
  bookings : list Booking.t;
  lastBookingId : Z }.

(** Rooms seeded at start-up when the table is empty. *)
Definition seedRooms : list Room.t :=
  [ Room.mk 1 "Standard Room"
      "Cozy room with queen bed, city view, workstation." 79 2
      (Some "https://images.unsplash.com/photo-1560066984-138dadb4c035?q=80&w=1200&auto=format&fit=crop"%string);
    Room.mk 2 "Deluxe Room"
      "Spacious room with king bed, balcony, partial sea view." 129 3
      (Some "https://images.unsplash.com/photo-1584132967334-10e028bd69f7?q=80&w=1200&auto=format&fit=crop"%string);
    Room.mk 3 "Family Suite"
      "Two-bedroom suite with lounge, perfect for families." 199 5
      (Some "https://images.unsplash.com/photo-1600585154526-990dced4db0d?q=80&w=1200&auto=format&fit=crop"%string) ].

Definition seed (db : Database) : Database :=
  if (Z.of_nat (List.length (rooms db)) =? 0)
  then mkDb (users db) seedRooms (bookings db) (lastBookingId db)
  else db.

Definition freshDb : Database := seed (mkDb [] [] [] 0).

(** [capacity >= ?] with the parsed guest count bound to the parameter:
    [NaN] is bound as NULL and the comparison then selects no row. *)
Definition sqlGe (column : Z) (param : option Z) : bool :=
  match param with
  | Some g => g <=? column
  | None => false
  end.

(** *** GET /api/rooms/search *)
Module Query.
Record t := mk {
  checkIn : option string; checkOut : option string;
  guests : option string }.
End Query.

Definition search (db : Database) (query : Query.t) : response (list Room.t) :=
  if falsyS (Query.checkIn query) || falsyS (Query.checkOut query)
  then Error 400 "checkIn & checkOut required"
  else
    let checkIn := valS (Query.checkIn query) in
    let checkOut := valS (Query.checkOut query) in
    let g := parseInt (orS (Query.guests query) "1") in
    let rooms := filter (fun r => sqlGe (Room.capacity r) g) (rooms db) in
    let bookings :=
      filter (fun b => String.eqb (Booking.status b) "confirmed")
             (bookings db) in
    let available :=
      filter (fun room =>
        let roomBookings :=
          filter (fun b => Booking.roomId b =? Room.id room) bookings in
        let overlapping :=
          existsb (fun b => datesOverlap checkIn checkOut
                              (Booking.checkIn b) (Booking.checkOut b))
                  roomBookings in
        negb overlapping) rooms in
    Ok available.

(** *** POST /api/bookings *)
Module Body.
Record t := mk {
  roomId : option Z;
  checkIn : option string; checkOut : option string;
  fullName : option string; email : option string;
  phone : option string; specialRequests : option string }.
End Body.

(** The WHERE clause of the conflict query,
<<
WHERE roomId = ? AND status = 'confirmed'
AND NOT (? <= checkIn OR checkOut <= ?)
>>
    with its three positional parameters in the order they are written. *)
Definition conflictRow (p1 : Z) (p2 p3 : string) (b : Booking.t) : bool :=
  (Booking.roomId b =? p1)
  && String.eqb (Booking.status b) "confirmed"
  && negb (String.leb p2 (Booking.checkIn b)
           || String.leb (Booking.checkOut b) p3).

(** [user] is [req.user.id] as left by the [auth] middleware, [now] the
    clock reading.  The answer carries the row read back by
    [lastInsertRowid] and the room.

    [bookings.userId] REFERENCES [users(id)] and better-sqlite3 enforces
    foreign keys: the INSERT throws when the user has no row.  The handler
    does not catch the exception, so the server answers 500 (the text kept
    here is the message of the exception) and nothing is written.  The
    reference of [roomId] holds, the room having just been found. *)
Definition createBooking (db : Database) (user : Z) (now : string)
    (body : Body.t) : Database * response (option Booking.t * Room.t) :=
  if falsyZ (Body.roomId body) || falsyS (Body.checkIn body)
     || falsyS (Body.checkOut body) || falsyS (Body.fullName body)
     || falsyS (Body.email body) || falsyS (Body.phone body)
  then (db, Error 400 "Missing fields")
  else
    let roomId := valZ (Body.roomId body) in
    let checkIn := valS (Body.checkIn body) in
    let checkOut := valS (Body.checkOut body) in
    let fullName := valS (Body.fullName body) in
    let email := valS (Body.email body) in
    let phone := valS (Body.phone body) in
    match find (fun r => Room.id r =? roomId) (rooms db) with
    | None => (db, Error 404 "Room not found")
    | Some room =>
        let c :=
          Z.of_nat (List.length (filter (conflictRow roomId checkIn checkOut)
                                   (bookings db))) in
        let overlapping := c >? 0 in
        if overlapping
        then (db, Error 409 "Room no longer available for those dates")
        else
          let createdAt := now in
          let status := "confirmed"%string in
          if negb (existsb (fun u => User.id u =? user) (users db))
          then (db, Error 500 "FOREIGN KEY constraint failed")
          else
          let lastInsertRowid := lastBookingId db + 1 in
          let row :=
            Booking.mk lastInsertRowid user roomId checkIn checkOut
              fullName email phone
              (Some (orS (Body.specialRequests body) "")) status createdAt in
          let db' :=
            mkDb (users db) (rooms db) (bookings db ++ [row])
                 lastInsertRowid in
          let booking :=
            find (fun b => Booking.id b =? lastInsertRowid) (bookings db') in
          (db', Ok (booking, room))
    end.

(** *** PATCH /api/bookings/:id/cancel *)

(** [id = ?] with the parsed path parameter bound to it; [NaN] is bound as
    NULL, which equals no id. *)
Definition sqlEq (column : Z) (param : option Z) : bool :=
  match param with
  | Some v => column =? v
  | None => false
  end.

Definition cancel (db : Database) (user : Z) (now : string)
    (idParam : string) : Database * response unit :=
  let id := parseInt idParam in
  match find (fun b => sqlEq (Booking.id b) id) (bookings db) with
  | None => (db, Error 404 "Booking not found")
  | Some booking =>
      if negb (Booking.userId booking =? user)
      then (db, Error 404 "Booking not found")
      else if negb (String.eqb (Booking.status booking) "confirmed")
      then (db, Error 400 "Cannot cancel this booking")
      else
        let nowISO := substring 0 10 now in
        if String.leb (Booking.checkIn booking) nowISO
        then (db, Error 400 "Cannot cancel past or ongoing stays")
        else
          (mkDb (users db) (rooms db)
             (map (fun b => if sqlEq (Booking.id b) id
                            then Booking.setStatus "cancelled" b else b)
                  (bookings db))
             (lastBookingId db),
           Ok tt)
  end.

(** *** Serial execution of core operations

    The routes that write to [bookings], and the search.  The remaining
    routes (health, register, login, the booking list) issue no statement
    that writes to [bookings] or [rooms]. *)
Inductive op :=
| CreateBooking (user : Z) (now : string) (body : Body.t)
| Cancel (user : Z) (now : string) (idParam : string)
| SearchRooms (query : Query.t).

Definition exec (db : Database) (o : op) : Database :=
  match o with
  | CreateBooking user now body => fst (createBooking db user now body)
  | Cancel user now idParam => fst (cancel db user now idParam)
  | SearchRooms _ => db
  end.

Definition run (db : Database) (ops : list op) : Database :=
  fold_left exec ops db.

(** *** The ledger invariant, as a check that can be run *)

Definition confirmed (b : Booking.t) : bool :=
  String.eqb (Booking.status b) "confirmed".

(** Two bookings of one room, both confirmed, whose ranges overlap. *)
Definition clash (a b : Booking.t) : bool :=
  (Booking.roomId a =? Booking.roomId b)
  && confirmed a && confirmed b
  && datesOverlap (Booking.checkIn a) (Booking.checkOut a)
                  (Booking.checkIn b) (Booking.checkOut b).

Definition noDoubleBooking (l : list Booking.t) : bool :=
  pairwise (fun a b => negb (clash a b)) l.

(** Bookings written by the handlers carry non-empty dates. *)
Definition datedRow (b : Booking.t) : Prop :=
  Booking.checkIn b <> ""%string /\ Booking.checkOut b <> ""%string.

End Sqlite.

(** ** The mongoose rendition (second document of [src/index.js])

    The handlers are [async]: every [await] hands control back to the event
    loop, so another request may run between two database calls of one
    handler.  A handler is therefore a task that advances by one database
    call at a time; the event loop picks which task advances next.

    An [ObjectId] is kept as its hexadecimal text; identifiers that do not
    cast to an [ObjectId] (a [CastError]) and storage failures are outside
    the model. *)
Module Mongo.

Definition ObjectId := string.

Module Room.
Record t := mk {
  _id : ObjectId; name : string; description : string;
  pricePerNight : Z; capacity : Z; image : string }.
End Room.

Module Booking.
Record t := mk {
  _id : ObjectId; userId : ObjectId; roomId : ObjectId;
  checkIn : string; checkOut : string;
  fullName : string; email : string; phone : string;
  specialRequests : string;
  status : string; createdAt : string }.

Definition setStatus (st : string) (b : t) : t :=
  mk (_id b) (userId b) (roomId b) (checkIn b) (checkOut b)
     (fullName b) (email b) (phone b) (specialRequests b) st (createdAt b).
End Booking.

Record Database := mkDb {
  rooms : list Room.t;
  bookings : list Booking.t }.

Module Body.
Record t := mk {
  roomId : option ObjectId;
  checkIn : option string; checkOut : option string;
  fullName : option string; email : option string;
  phone : option string; specialRequests : option string }.
End Body.

(** What one POST /api/bookings request brings along: the authenticated
    user, the body, the clock reading it will take and the [_id] the
    driver will give to the new document. *)
Record CreateRequest := mkCreate {
  user : ObjectId;
  body : Body.t;
  now : string;
  newId : ObjectId }.

(** The filter of [Booking.findOne]:
<<
{ roomId, status: "confirmed",
$nor: [ { checkIn: { $gte: checkOut } }, { checkOut: { $lte: checkIn } } ] }
>> *)
Definition overlapFilter (roomId : ObjectId) (checkIn checkOut : string)
    (b : Booking.t) : bool :=
  String.eqb (Booking.roomId b) roomId
  && String.eqb (Booking.status b) "confirmed"
  && negb (String.leb checkOut (Booking.checkIn b)
           || String.leb (Booking.checkOut b) checkIn).

(** The points at which the POST /api/bookings handler can be suspended:
    before each of its three [await]ed calls, and after its answer. *)
Inductive task :=
| AtFindRoom (req : CreateRequest)
| AtFindOverlap (req : CreateRequest) (room : Room.t)
| AtCreate (req : CreateRequest) (room : Room.t)
| Done (res : response (Booking.t * Room.t)).

(** The synchronous prefix of the handler, up to its first [await]. *)
Definition createBookingStart (req : CreateRequest) : task :=
  let b := body req in
  if falsyS (Body.roomId b) || falsyS (Body.checkIn b)
     || falsyS (Body.checkOut b) || falsyS (Body.fullName b)
     || falsyS (Body.email b) || falsyS (Body.phone b)
  then Done (Error 400 "Missing fields")
  else AtFindRoom req.

(** One database call and the synchronous code after it, up to the next
    [await] or to the answer. *)
Definition step (db : Database) (t : task) : Database * task :=
  match t with
  | AtFindRoom req =>
      let roomId := valS (Body.roomId (body req)) in
      match find (fun r => String.eqb (Room._id r) roomId) (rooms db) with
      | None => (db, Done (Error 404 "Room not found"))
      | Some room => (db, AtFindOverlap req room)
      end
  | AtFindOverlap req room =>
      let roomId := valS (Body.roomId (body req)) in
      let checkIn := valS (Body.checkIn (body req)) in
      let checkOut := valS (Body.checkOut (body req)) in
      match find (overlapFilter roomId checkIn checkOut) (bookings db) with
      | Some overlapping =>
          (db, Done (Error 409 "Room no longer available for those dates"))
      | None => (db, AtCreate req room)
      end
  | AtCreate req room =>
      let b := body req in
      let createdAt := now req in
      let booking :=
        Booking.mk (newId req) (user req) (valS (Body.roomId b))
          (valS (Body.checkIn b)) (valS (Body.checkOut b))
          (valS (Body.fullName b)) (valS (Body.email b))
          (valS (Body.phone b)) (orS (Body.specialRequests b) "")
          "confirmed" createdAt in
      (mkDb (rooms db) (bookings db ++ [booking]),
       Done (Ok (booking, room)))
  | Done res => (db, Done res)
  end.

(** A handler that runs without any other request in between. *)
Definition createBooking (db : Database) (req : CreateRequest)
    : Database * task :=
  let '(db1, t1) := step db (createBookingStart req) in
  let '(db2, t2) := step db1 t1 in
  step db2 t2.

(** Requests in flight, and the event loop advancing the task it picks. *)
Definition system : Type := Database * list task.

Fixpoint stepAt (i : nat) (db : Database) (ts : list task)
    : Database * list task :=
  match ts, i with
  | [], _ => (db, [])
  | t :: ts', O => let '(db', t') := step db t in (db', t' :: ts')
  | t :: ts', S i' => let '(db', ts'') := stepAt i' db ts' in (db', t :: ts'')
  end.

Fixpoint schedule (order : list nat) (sys : system) : system :=
  match order with
  | [] => sys
  | i :: order' => schedule order' (stepAt i (fst sys) (snd sys))
  end.

(** *** PATCH /api/bookings/:id/cancel

    The handler awaits [Booking.findById], then sets the status on the
    document it holds and awaits [save], which writes the changed path
    of the document with that [_id]. *)
Record CancelRequest := mkCancel {
  cancelUser : ObjectId;
  cancelId : ObjectId;
  cancelNow : string }.

Inductive cancelTask :=
| AtFindBooking (req : CancelRequest)
| AtSave (req : CancelRequest) (booking : Booking.t)
| CancelDone (res : response unit).

Definition cancelStep (db : Database) (t : cancelTask)
    : Database * cancelTask :=
  match t with
  | AtFindBooking req =>
      match find (fun b => String.eqb (Booking._id b) (cancelId req))
                 (bookings db) with
      | None => (db, CancelDone (Error 404 "Booking not found"))
      | Some booking =>
          if negb (String.eqb (Booking.userId booking) (cancelUser req))
          then (db, CancelDone (Error 404 "Booking not found"))
          else if negb (String.eqb (Booking.status booking) "confirmed")
          then (db, CancelDone (Error 400 "Cannot cancel this booking"))
          else
            let nowISO := substring 0 10 (cancelNow req) in
            if String.leb (Booking.checkIn booking) nowISO
            then (db, CancelDone
                        (Error 400 "Cannot cancel past or ongoing stays"))
            else (db, AtSave req booking)
      end
  | AtSave req booking =>
      (mkDb (rooms db)
         (map (fun b => if String.eqb (Booking._id b) (Booking._id booking)
                        then Booking.setStatus "cancelled" b else b)
              (bookings db)),
       CancelDone (Ok tt))
  | CancelDone res => (db, CancelDone res)
  end.

Definition confirmed (b : Booking.t) : bool :=
  String.eqb (Booking.status b) "confirmed".

Definition clash (a b : Booking.t) : bool :=
  String.eqb (Booking.roomId a) (Booking.roomId b)
  && confirmed a && confirmed b
  && datesOverlap (Booking.checkIn a) (Booking.checkOut a)
                  (Booking.checkIn b) (Booking.checkOut b).

Definition noDoubleBooking (l : list Booking.t) : bool :=
  pairwise (fun a b => negb (clash a b)) l.

End Mongo.

(** ** Notions of the specification, for the statements below *)

(** A request field that was supplied: present and not empty. *)
Definition supplied (x : option string) (s : string) : Prop :=
  x = Some s /\ s <> ""%string.

(** Section 4.4, step 3: a room is available for a range when no confirmed
    booking on it overlaps the range. *)
Definition roomFree (db : Sqlite.Database) (checkIn checkOut : string)
    (r : Sqlite.Room.t) : Prop :=
  forall b, In b (Sqlite.bookings db) ->
    Sqlite.Booking.status b = "confirmed"%string ->
    Sqlite.Booking.roomId b = Sqlite.Room.id r ->
    datesOverlap checkIn checkOut
      (Sqlite.Booking.checkIn b) (Sqlite.Booking.checkOut b) = false.

(** Section 4.5, step 3: the number of confirmed bookings on a room whose
    range overlaps the requested one, by the overlap predicate. *)
Definition overlapCount (db : Sqlite.Database) (roomId : Z)
    (checkIn checkOut : string) : nat :=
  List.length
    (filter (fun b =>
       (Sqlite.Booking.roomId b =? roomId) && Sqlite.confirmed b
       && datesOverlap checkIn checkOut
            (Sqlite.Booking.checkIn b) (Sqlite.Booking.checkOut b))
       (Sqlite.bookings db)).

(** The primary key of [bookings]: no two rows share an id, and no id is
    beyond the AUTOINCREMENT counter. *)
Definition keyed (db : Sqlite.Database) : Prop :=
  NoDup (map Sqlite.Booking.id (Sqlite.bookings db))
  /\ Forall (fun b => Sqlite.Booking.id b <= Sqlite.lastBookingId db)
            (Sqlite.bookings db).

(** Every field of a booking row but its status. *)
Definition sameButStatus (a b : Sqlite.Booking.t) : Prop :=
  Sqlite.Booking.id a = Sqlite.Booking.id b
  /\ Sqlite.Booking.userId a = Sqlite.Booking.userId b
  /\ Sqlite.Booking.roomId a = Sqlite.Booking.roomId b
  /\ Sqlite.Booking.checkIn a = Sqlite.Booking.checkIn b
  /\ Sqlite.Booking.checkOut a = Sqlite.Booking.checkOut b
  /\ Sqlite.Booking.fullName a = Sqlite.Booking.fullName b
  /\ Sqlite.Booking.email a = Sqlite.Booking.email b
  /\ Sqlite.Booking.phone a = Sqlite.Booking.phone b
  /\ Sqlite.Booking.specialRequests a = Sqlite.Booking.specialRequests b
  /\ Sqlite.Booking.createdAt a = Sqlite.Booking.createdAt b.

(** The filter that [search] applies to the rooms, in one piece. *)
Definition searchKeeps (db : Sqlite.Database) (checkIn checkOut : string)
    (g : option Z) (room : Sqlite.Room.t) : bool :=
  Sqlite.sqlGe (Sqlite.Room.capacity room) g
  && negb (existsb
       (fun b => datesOverlap checkIn checkOut
                   (Sqlite.Booking.checkIn b) (Sqlite.Booking.checkOut b))
       (filter (fun b => Sqlite.Booking.roomId b =? Sqlite.Room.id room)
          (filter (fun b => String.eqb (Sqlite.Booking.status b) "confirmed")
             (Sqlite.bookings db)))).

(** The effect of the UPDATE of [Sqlite.cancel] on one row. *)
Definition cancelledAt (id : option Z) (b : Sqlite.Booking.t)
    : Sqlite.Booking.t :=
  if Sqlite.sqlEq (Sqlite.Booking.id b) id
  then Sqlite.Booking.setStatus "cancelled" b else b.

(** The row that [Sqlite.createBooking] inserts when it gets that far. *)
Definition newRow (db : Sqlite.Database) (user : Z) (now : string)
    (body : Sqlite.Body.t) : Sqlite.Booking.t :=
  Sqlite.Booking.mk (Sqlite.lastBookingId db + 1) user
    (valZ (Sqlite.Body.roomId body))
    (valS (Sqlite.Body.checkIn body)) (valS (Sqlite.Body.checkOut body))
    (valS (Sqlite.Body.fullName body)) (valS (Sqlite.Body.email body))
    (valS (Sqlite.Body.phone body))
    (Some (orS (Sqlite.Body.specialRequests body) "")) "confirmed" now.

(** ** Concrete requests and ledgers (the scenarios of section 8) *)
Module Scenario.

Definition clock : string := "2024-05-01T09:30:00.000Z".

Definition body (roomId : Z) (checkIn checkOut : string) : Sqlite.Body.t :=
  Sqlite.Body.mk (Some roomId) (Some checkIn) (Some checkOut)
    (Some "Ada Perera"%string) (Some "ada@example.com"%string)
    (Some "0771234567"%string) None.

(** The fresh database with two registered users, 7 and 9. *)
Definition registered : Sqlite.Database :=
  Sqlite.mkDb
    [Sqlite.User.mk 7 "Ada Perera" "ada@example.com"
       "$2a$10$N9qo8uLOickgx2ZMRZoMye" "2024-04-30T18:00:00.000Z";
     Sqlite.User.mk 9 "Ben Silva" "ben@example.com"
       "$2a$10$7EqJtq98hPqEX7fNZaFWoO" "2024-04-30T19:00:00.000Z"]
    (Sqlite.rooms Sqlite.freshDb) (Sqlite.bookings Sqlite.freshDb)
    (Sqlite.lastBookingId Sqlite.freshDb).

(** Room 1 booked by user 7 for 2024-06-01 to 2024-06-05. *)
Definition booked : Sqlite.Database :=
  Sqlite.run registered
    [Sqlite.CreateBooking 7 clock (body 1 "2024-06-01" "2024-06-05")].

(** Room 1 booked by user 7 for 2024-06-05 to 2024-06-08. *)
Definition bookedLate : Sqlite.Database :=
  Sqlite.run registered
    [Sqlite.CreateBooking 7 clock (body 1 "2024-06-05" "2024-06-08")].

Definition query (checkIn checkOut : string) (guests : option string)
    : Sqlite.Query.t :=
  Sqlite.Query.mk (Some checkIn) (Some checkOut) guests.

Definition mongoRoom : Mongo.Room.t :=
  Mongo.Room.mk "65f0c0ffee0000000000a001" "Standard Room"
    "Cozy room with queen bed, city view, workstation." 79 2
    "https://images.unsplash.com/photo-1560066984-138dadb4c035?q=80&w=1200&auto=format&fit=crop".

Definition mongoDb : Mongo.Database := Mongo.mkDb [mongoRoom] [].

(** Two users and the ids the driver gives to their new documents. *)
Definition alice : Mongo.ObjectId := "65f0c0ffee0000000000b001".
Definition bob : Mongo.ObjectId := "65f0c0ffee0000000000b002".
Definition idA : Mongo.ObjectId := "65f0c0ffee0000000000c001".
Definition idB : Mongo.ObjectId := "65f0c0ffee0000000000c002".

Definition mongoRequest (user newId checkIn checkOut : string)
    : Mongo.CreateRequest :=
  Mongo.mkCreate user
    (Mongo.Body.mk (Some (Mongo.Room._id mongoRoom))
       (Some checkIn) (Some checkOut)
       (Some "Ada Perera"%string) (Some "ada@example.com"%string)
       (Some "0771234567"%string) None)
    clock newId.

(** Two requests in flight for the same room, with ranges that overlap:
    2024-06-01 to 2024-06-05 and 2024-06-03 to 2024-06-06. *)
Definition inFlight : Mongo.system :=
  (mongoDb,
   [Mongo.createBookingStart (mongoRequest alice idA "2024-06-01" "2024-06-05");
    Mongo.createBookingStart (mongoRequest bob idB "2024-06-03" "2024-06-06")]).

End Scenario.

(** ** The [auth] middleware (identical in both renditions)

<<
const authHeader = req.headers.authorization || "";
const token = authHeader.startsWith("Bearer ") ? authHeader.slice(7) : null;
if (!token) return res.status(401).json({ error: "Missing token" });
try { req.user = jwt.verify(token, JWT_SECRET); next(); }
catch (err) { return res.status(401).json({ error: "Invalid token" }); }
>>
    [jwt.verify] belongs to a library: it is an argument, [None] standing
    for the exception it throws. *)
Module Auth.

(** [s.slice(n)]: the string without its first [n] characters. *)
Fixpoint slice (n : nat) (s : string) : string :=
  match n, s with
  | O, _ => s
  | S n', String _ s' => slice n' s'
  | S _, EmptyString => EmptyString
  end.

Inductive outcome (P : Type) : Type :=
| Next (user : P)
| Reject (status : Z) (error : string).
Arguments Next {P} user.
Arguments Reject {P} status error.

Definition auth {P : Type} (verify : string -> option P)
    (authorization : option string) : outcome P :=
  let authHeader := orS authorization "" in
  let token :=
    if String.prefix "Bearer " authHeader
    then Some (slice 7 authHeader) else None in
  if falsyS token
  then Reject 401 "Missing token"
  else
    match verify (valS token) with
    | Some payload => Next payload
    | None => Reject 401 "Invalid token"
    end.

End Auth.

(** ** The guarded routes of the better-sqlite3 rendition: [auth] first,
    then the handler with [req.user.id]. *)
Module Routes.

(** The part of the token payload the handlers read. *)
Record Claims := mkClaims { id : Z; email : string; name : string }.

Definition postBookings (verify : string -> option Claims)
    (db : Sqlite.Database) (authorization : option string) (now : string)
    (body : Sqlite.Body.t)
    : Sqlite.Database * response (option Sqlite.Booking.t * Sqlite.Room.t) :=
  match Auth.auth verify authorization with
  | Auth.Reject status error => (db, Error status error)
  | Auth.Next user => Sqlite.createBooking db (id user) now body
  end.

Definition patchCancel (verify : string -> option Claims)
    (db : Sqlite.Database) (authorization : option string) (now : string)
    (idParam : string) : Sqlite.Database * response unit :=
  match Auth.auth verify authorization with
  | Auth.Reject status error => (db, Error status error)
  | Auth.Next user => Sqlite.cancel db (id user) now idParam
  end.

End Routes.

(** ** POST /api/register and POST /api/login (better-sqlite3 rendition)

    [bcrypt.hashSync], [bcrypt.compareSync] and the signing of the token
    belong to libraries: they are arguments.  [hashSync] draws a fresh salt
    at every call, so each call of [register] is given its own. *)
Module Accounts.

Module Form.
Record t := mk {
  name : option string; email : option string; password : option string }.
End Form.

(** The [user] object of the answers. *)
Module View.
Record t := mk { id : Z; name : string; email : string }.
End View.

(** The id AUTOINCREMENT gives to the next row: one more than the largest
    id handed out.  No statement deletes a user, so the largest id handed
    out is the largest id in the table. *)
Definition nextUserId (users : list Sqlite.User.t) : Z :=
  fold_right Z.max 0 (map Sqlite.User.id users) + 1.

Definition register (hashSync : string -> string)
    (issueToken : View.t -> string) (db : Sqlite.Database) (now : string)
    (form : Form.t) : Sqlite.Database * response (View.t * string) :=
  if falsyS (Form.name form) || falsyS (Form.email form)
     || falsyS (Form.password form)
  then (db, Error 400 "Missing fields")
  else
    let name := valS (Form.name form) in
    let email := valS (Form.email form) in
    let password := valS (Form.password form) in
    match find (fun u => String.eqb (Sqlite.User.email u) email)
               (Sqlite.users db) with
    | Some existing => (db, Error 409 "Email already registered")
    | None =>
        let passwordHash := hashSync password in
        let createdAt := now in
        let lastInsertRowid := nextUserId (Sqlite.users db) in
        let row :=
          Sqlite.User.mk lastInsertRowid name email passwordHash createdAt in
        let user := View.mk lastInsertRowid name email in
        let token := issueToken user in
        (Sqlite.mkDb (Sqlite.users db ++ [row]) (Sqlite.rooms db)
           (Sqlite.bookings db) (Sqlite.lastBookingId db),
         Ok (user, token))
    end.

Definition login (compareSync : string -> string -> bool)
    (issueToken : View.t -> string) (db : Sqlite.Database)
    (form : Form.t) : response (View.t * string) :=
  if falsyS (Form.email form) || falsyS (Form.password form)
  then Error 400 "Missing fields"
  else
    let email := valS (Form.email form) in
    let password := valS (Form.password form) in
    match find (fun u => String.eqb (Sqlite.User.email u) email)
               (Sqlite.users db) with
    | None => Error 401 "Invalid email or password"
    | Some user =>
        let ok := compareSync password (Sqlite.User.passwordHash user) in
        if negb ok
        then Error 401 "Invalid email or password"
        else
          let view :=
            View.mk (Sqlite.User.id user) (Sqlite.User.name user)
                    (Sqlite.User.email user) in
          Ok (view, issueToken view)
    end.

End Accounts.

(** ** The cached connection of [src/lib/db.js]

<<
let cached = global.mongoose;
if (!cached) cached = global.mongoose = { conn: null, promise: null };
async function dbConnect() {
  if (cached.conn) return cached.conn;
  if (!cached.promise) cached.promise = mongoose.connect(MONGO_URI, ...);
  cached.conn = await cached.promise;
  return cached.conn;
}
>>
    A call of [dbConnect] runs up to its [await] ([enter]), is suspended
    while the promise is pending, and goes on once it is settled
    ([resume]).  The driver settles the promise ([settle]).  [connects]
    counts the calls of [mongoose.connect] that [dbConnect] makes; the call
    that the start-up code of the mongoose rendition makes on its own
    (src/index.js, after [await dbConnect()]) does not go through this
    function and is not counted. *)
Module Connection.

Inductive Promise (C : Type) : Type :=
| Pending
| Fulfilled (conn : C)
| Rejected (err : string).
Arguments Pending {C}.
Arguments Fulfilled {C} conn.
Arguments Rejected {C} err.

Record Cached (C : Type) := mkCached {
  conn : option C;
  promise : option (Promise C);
  connects : nat }.
Arguments mkCached {C} conn promise connects.
Arguments conn {C} c.
Arguments promise {C} c.
Arguments connects {C} c.

Definition initial {C : Type} : Cached C := mkCached None None O.

(** How a call stands: it has returned, it has thrown, or it waits at the
    [await]. *)
Inductive call (C : Type) : Type :=
| Returned (conn : C)
| Threw (err : string)
| Awaiting.
Arguments Returned {C} conn.
Arguments Threw {C} err.
Arguments Awaiting {C}.

Definition enter {C : Type} (cached : Cached C) : Cached C * call C :=
  match conn cached with
  | Some c => (cached, Returned c)
  | None =>
      match promise cached with
      | Some _ => (cached, Awaiting)
      | None => (mkCached (conn cached) (Some Pending)
                          (S (connects cached)), Awaiting)
      end
  end.

Definition settle {C : Type} (result : C + string) (cached : Cached C)
    : Cached C :=
  match promise cached with
  | Some Pending =>
      mkCached (conn cached)
        (Some (match result with
               | inl c => Fulfilled c
               | inr e => Rejected e
               end))
        (connects cached)
  | _ => cached
  end.

Definition resume {C : Type} (cached : Cached C) : Cached C * call C :=
  match promise cached with
  | Some (Fulfilled c) =>
      (mkCached (Some c) (promise cached) (connects cached), Returned c)
  | Some (Rejected e) => (cached, Threw e)
  | _ => (cached, Awaiting)
  end.

(** What can happen to the cache, in any order. *)
Inductive event (C : Type) : Type :=
| Enter
| Settle (result : C + string)
| Resume.
Arguments Enter {C}.
Arguments Settle {C} result.
Arguments Resume {C}.

Definition apply {C : Type} (cached : Cached C) (e : event C) : Cached C :=
  match e with
  | Enter => fst (enter cached)
  | Settle result => settle result cached
  | Resume => fst (resume cached)
  end.

Definition play {C : Type} (cached : Cached C) (es : list (event C))
    : Cached C :=
  fold_left apply es cached.

End Connection.

(** ** Notions used by the further properties *)

(** How many database calls a mongoose booking task still has to make. *)
Definition callsLeft (t : Mongo.task) : nat :=
  match t with
  | Mongo.AtFindRoom _ => 3
  | Mongo.AtFindOverlap _ _ => 2
  | Mongo.AtCreate _ _ => 1
  | Mongo.Done _ => 0
  end.

(** A row as the handlers write it: every required column filled, special
    requests not NULL, status one of the two the code knows. *)
Definition writtenRow (b : Sqlite.Booking.t) : Prop :=
  Sqlite.Booking.roomId b <> 0
  /\ Sqlite.Booking.checkIn b <> ""%string
  /\ Sqlite.Booking.checkOut b <> ""%string
  /\ Sqlite.Booking.fullName b <> ""%string
  /\ Sqlite.Booking.email b <> ""%string
  /\ Sqlite.Booking.phone b <> ""%string
  /\ Sqlite.Booking.specialRequests b <> None
  /\ (Sqlite.Booking.status b = "confirmed"%string
      \/ Sqlite.Booking.status b = "cancelled"%string).

(** Every booking is on a room of the catalogue. *)
Definition roomsExist (db : Sqlite.Database) : Prop :=
  forall b, In b (Sqlite.bookings db) ->
    exists r, In r (Sqlite.rooms db)
              /\ Sqlite.Room.id r = Sqlite.Booking.roomId b.

(** A booking request that lacks a required field: no room id or the id 0,
    or a date, the name, the email or the phone absent or empty. *)
Definition missingField (body : Sqlite.Body.t) : Prop :=
  falsyZ (Sqlite.Body.roomId body) = true
  \/ falsyS (Sqlite.Body.checkIn body) = true
  \/ falsyS (Sqlite.Body.checkOut body) = true
  \/ falsyS (Sqlite.Body.fullName body) = true
  \/ falsyS (Sqlite.Body.email body) = true
  \/ falsyS (Sqlite.Body.phone body) = true.

(** * Properties *)

(** ** The string order *)

Lemma ascii_compare_refl (c : ascii) : Ascii.compare c c = Eq.
Proof. unfold Ascii.compare. apply N.compare_refl. Qed.

Lemma string_compare_refl (s : string) : String.compare s s = Eq.
Proof.
  induction s as [|c s IH]; simpl.
  - reflexivity.
  - rewrite ascii_compare_refl. exact IH.
Qed.

Lemma leb_refl (s : string) : String.leb s s = true.
Proof. unfold String.leb. now rewrite string_compare_refl. Qed.

(** [String.leb] decides the lexicographic order of the specification. *)
Lemma leb_lex_le (s t : string) : String.leb s t = true <-> lex_le s t.
Proof.
  unfold String.leb. split.
  - revert t. induction s as [|c s IH]; intros t H.
    + constructor.
    + destruct t as [|d t]; simpl in H; [discriminate|].
      unfold Ascii.compare in H.
      destruct (N.compare_spec (N_of_ascii c) (N_of_ascii d)) as [E|L|G].
      * assert (c = d) as ->.
        { rewrite <- (ascii_N_embedding c), <- (ascii_N_embedding d).
          now rewrite E. }
        apply lex_le_same. apply IH. exact H.
      * now apply lex_le_less.
      * discriminate.
  - induction 1 as [t|c d s t L|c s t _ IH]; simpl.
    + now destruct t.
    + unfold Ascii.compare. apply N.compare_lt_iff in L. now rewrite L.
    + rewrite ascii_compare_refl. exact IH.
Qed.

(** ** C3: the overlap predicate *)

Lemma datesOverlap_sym (a b c d : string) :
  datesOverlap a b c d = datesOverlap c d a b.
Proof. unfold datesOverlap. now rewrite orb_comm. Qed.

Lemma datesOverlap_false (a b c d : string) :
  datesOverlap a b c d = false <->
  String.leb b c = true \/ String.leb d a = true.
Proof.
  unfold datesOverlap. rewrite negb_false_iff, orb_true_iff. reflexivity.
Qed.

(** C3.  For all four strings, [datesOverlap] answers true exactly when it
    is not the case that the first range ends at or before the start of the
    second, or the second ends at or before the start of the first, in the
    lexicographic order; it gives the same answer with the two ranges
    exchanged; and two ranges that share only a boundary day do not
    overlap.  Being a function of its four arguments alone, it is total and
    touches no state. *)
Theorem C3_datesOverlap_spec :
  forall aStart aEnd bStart bEnd : string,
    (datesOverlap aStart aEnd bStart bEnd = true <->
       ~ (lex_le aEnd bStart \/ lex_le bEnd aStart))
    /\ datesOverlap aStart aEnd bStart bEnd
       = datesOverlap bStart bEnd aStart aEnd
    /\ (forall x y z : string, datesOverlap x y y z = false)
    /\ (exists r : bool, datesOverlap aStart aEnd bStart bEnd = r).
Proof.
  intros a b c d. repeat split.
  - intros H [L|L]; apply leb_lex_le in L;
      unfold datesOverlap in H; rewrite L in H;
      rewrite ?orb_true_r in H; discriminate.
  - intros H. unfold datesOverlap.
    destruct (String.leb b c) eqn:E1.
    + exfalso. apply H. left. now apply leb_lex_le.
    + destruct (String.leb d a) eqn:E2.
      * exfalso. apply H. right. now apply leb_lex_le.
      * reflexivity.
  - apply datesOverlap_sym.
  - intros x y z. apply datesOverlap_false. left. apply leb_refl.
  - eexists. reflexivity.
Qed.

(** ** Truthiness of request fields *)

Lemma falsyS_false (x : option string) :
  falsyS x = false <-> exists s, supplied x s.
Proof.
  unfold falsyS, supplied. destruct x as [s|].
  - rewrite String.eqb_neq. split.
    + intros H. exists s. auto.
    + intros [s' [E H]]. now inversion E; subst.
  - split; [discriminate | intros [s [E _]]; discriminate].
Qed.

Lemma supplied_falsyS (x : option string) (s : string) :
  supplied x s -> falsyS x = false.
Proof. intros H. apply falsyS_false. now exists s. Qed.

Lemma supplied_valS (x : option string) (s : string) :
  supplied x s -> valS x = s.
Proof.
  intros [-> H]. unfold valS, orS.
  apply String.eqb_neq in H. now rewrite H.
Qed.

Lemma falsyS_orS (x : option string) (d : string) :
  falsyS x = true -> orS x d = d.
Proof.
  unfold falsyS, orS. destruct x as [s|]; [|reflexivity].
  intros H. now rewrite H.
Qed.

Lemma falsyZ_false (x : option Z) :
  falsyZ x = false -> x = Some (valZ x) /\ valZ x <> 0.
Proof.
  unfold falsyZ, valZ. destruct x as [n|]; [|discriminate].
  intros H. apply Z.eqb_neq in H. auto.
Qed.

Lemma falsyS_valS (x : option string) :
  falsyS x = false -> x = Some (valS x) /\ valS x <> ""%string.
Proof.
  intros H. apply falsyS_false in H as [s Hs].
  rewrite (supplied_valS _ _ Hs). exact Hs.
Qed.

(** ** Lists *)

Lemma filter_filter_andb {A} (f g : A -> bool) (l : list A) :
  filter f (filter g l) = filter (fun x => g x && f x) l.
Proof.
  induction l as [|x l IH]; simpl; [reflexivity|].
  destruct (g x); simpl; [destruct (f x)|]; now rewrite IH.
Qed.

Lemma existsb_false_iff {A} (f : A -> bool) (l : list A) :
  existsb f l = false <-> forall x, In x l -> f x = false.
Proof.
  split.
  - intros H x Hx. destruct (f x) eqn:E; [|reflexivity].
    rewrite <- H. symmetry. apply existsb_exists. now exists x.
  - intros H. destruct (existsb f l) eqn:E; [|reflexivity].
    apply existsb_exists in E as [x [Hx E]]. rewrite (H x Hx) in E.
    discriminate.
Qed.

(** ** C5: availability search *)

Lemma search_supplied (db : Sqlite.Database) (q : Sqlite.Query.t)
    (ci co : string) :
  supplied (Sqlite.Query.checkIn q) ci ->
  supplied (Sqlite.Query.checkOut q) co ->
  Sqlite.search db q
  = Ok (filter (searchKeeps db ci co
                  (parseInt (orS (Sqlite.Query.guests q) "1")))
               (Sqlite.rooms db)).
Proof.
  intros Hi Ho. unfold Sqlite.search.
  rewrite (supplied_falsyS _ _ Hi), (supplied_falsyS _ _ Ho). simpl.
  rewrite (supplied_valS _ _ Hi), (supplied_valS _ _ Ho).
  rewrite filter_filter_andb. reflexivity.
Qed.

Lemma searchKeeps_spec (db : Sqlite.Database) (ci co : string)
    (g : option Z) (room : Sqlite.Room.t) :
  searchKeeps db ci co g room = true <->
  (exists n, g = Some n /\ n <= Sqlite.Room.capacity room)
  /\ roomFree db ci co room.
Proof.
  unfold searchKeeps, roomFree.
  rewrite andb_true_iff, negb_true_iff, existsb_false_iff.
  assert (Sqlite.sqlGe (Sqlite.Room.capacity room) g = true <->
          exists n, g = Some n /\ n <= Sqlite.Room.capacity room) as ->.
  { unfold Sqlite.sqlGe. destruct g as [n|].
    + rewrite Z.leb_le. split.
      * intros H. now exists n.
      * intros [m [E H]]. now inversion E; subst.
    + split; [discriminate | intros [m [E _]]; discriminate]. }
  apply and_iff_compat_l.
  split.
  - intros H b Hb Hs Hr. apply H.
    apply filter_In. split; [|now apply Z.eqb_eq].
    apply filter_In. split; [exact Hb | now apply String.eqb_eq].
  - intros H b Hb. apply filter_In in Hb as [Hb Hr].
    apply filter_In in Hb as [Hb Hs].
    apply H; [exact Hb | now apply String.eqb_eq | now apply Z.eqb_eq].
Qed.

(** C5.  A search with both dates supplied answers with the rooms, in
    catalogue order, whose capacity is at least the guest count (1 when
    [guests] is not given) and on which no confirmed booking overlaps the
    requested range; bookings of any other status play no part, and the
    answer is a success even when no room qualifies.  A search in which
    [checkIn] or [checkOut] is missing is refused with status 400. *)
Theorem C5_search_spec :
  forall (db : Sqlite.Database) (q : Sqlite.Query.t),
    (falsyS (Sqlite.Query.checkIn q) = true
     \/ falsyS (Sqlite.Query.checkOut q) = true ->
     Sqlite.search db q = Error 400 "checkIn & checkOut required")
    /\
    (forall ci co : string,
       supplied (Sqlite.Query.checkIn q) ci ->
       supplied (Sqlite.Query.checkOut q) co ->
       let minGuests := parseInt (orS (Sqlite.Query.guests q) "1") in
       (falsyS (Sqlite.Query.guests q) = true -> minGuests = Some 1)
       /\ exists keep : Sqlite.Room.t -> bool,
            Sqlite.search db q = Ok (filter keep (Sqlite.rooms db))
            /\ forall r : Sqlite.Room.t,
                 keep r = true <->
                 (exists n, minGuests = Some n
                            /\ n <= Sqlite.Room.capacity r)
                 /\ roomFree db ci co r).
Proof.
  intros db q. split.
  - intros H. unfold Sqlite.search.
    destruct H as [H|H]; rewrite H; [|rewrite orb_true_r]; reflexivity.
  - intros ci co Hi Ho minGuests. split.
    + intros Hg. unfold minGuests. now rewrite (falsyS_orS _ _ Hg).
    + exists (searchKeeps db ci co minGuests). split.
      * apply search_supplied; assumption.
      * intros r. apply searchKeeps_spec.
Qed.

Lemma C5_search_witness :
  Sqlite.search Scenario.booked (Sqlite.Query.mk None (Some "2024-06-05"%string) None)
  = Error 400 "checkIn & checkOut required"
  /\ exists keep : Sqlite.Room.t -> bool,
       Sqlite.search Scenario.booked
         (Scenario.query "2024-06-03" "2024-06-06" (Some "2"%string))
       = Ok (filter keep (Sqlite.rooms Scenario.booked))
       /\ forall r : Sqlite.Room.t,
            keep r = true <->
            (exists n, parseInt "2" = Some n /\ n <= Sqlite.Room.capacity r)
            /\ roomFree Scenario.booked "2024-06-03" "2024-06-06" r.
Proof.
  split.
  - apply (proj1 (C5_search_spec Scenario.booked
                    (Sqlite.Query.mk None (Some "2024-06-05"%string) None))).
    left. reflexivity.
  - apply (proj2 (C5_search_spec Scenario.booked
                    (Scenario.query "2024-06-03" "2024-06-06"
                       (Some "2"%string)))
                 "2024-06-03"%string "2024-06-06"%string).
    + split; [reflexivity | discriminate].
    + split; [reflexivity | discriminate].
Defined.

(** ** Cancellation *)

(** What a successful cancellation went through. *)
Lemma cancel_ok_inv (db db' : Sqlite.Database) (user : Z)
    (now idParam : string) :
  Sqlite.cancel db user now idParam = (db', Ok tt) ->
  exists i booking,
    parseInt idParam = Some i
    /\ find (fun b => Sqlite.Booking.id b =? i) (Sqlite.bookings db)
       = Some booking
    /\ Sqlite.Booking.userId booking = user
    /\ Sqlite.Booking.status booking = "confirmed"
    /\ String.leb (Sqlite.Booking.checkIn booking) (substring 0 10 now) = false
    /\ db' = Sqlite.mkDb (Sqlite.users db) (Sqlite.rooms db)
               (map (cancelledAt (Some i)) (Sqlite.bookings db))
               (Sqlite.lastBookingId db).
Proof.
  unfold Sqlite.cancel. intros H.
  destruct (parseInt idParam) as [i|].
  - simpl in H.
    destruct (find _ (Sqlite.bookings db)) as [booking|] eqn:F;
      [|discriminate].
    destruct (Sqlite.Booking.userId booking =? user) eqn:U; [|discriminate].
    destruct (String.eqb (Sqlite.Booking.status booking) "confirmed") eqn:S;
      [|discriminate].
    destruct (String.leb _ _) eqn:L; [discriminate|]. simpl in H.
    exists i, booking. repeat split; auto.
    + now apply Z.eqb_eq.
    + now apply String.eqb_eq.
    + now inversion H.
  - destruct (find _ (Sqlite.bookings db)) as [booking|] eqn:F;
      [|discriminate].
    apply find_some in F as [_ F]. discriminate.
Qed.

(** A cancellation that does not succeed leaves the database as it was. *)
Lemma cancel_error_unchanged (db : Sqlite.Database) (user : Z)
    (now idParam : string) :
  isOk (snd (Sqlite.cancel db user now idParam)) = false ->
  fst (Sqlite.cancel db user now idParam) = db.
Proof.
  unfold Sqlite.cancel.
  destruct (find _ (Sqlite.bookings db)) as [booking|]; [|reflexivity].
  destruct (Sqlite.Booking.userId booking =? user); [|reflexivity].
  destruct (String.eqb (Sqlite.Booking.status booking) "confirmed");
    [|reflexivity].
  destruct (String.leb _ _); [reflexivity|]. discriminate.
Qed.

Lemma find_by_id (l : list Sqlite.Booking.t) (b : Sqlite.Booking.t) :
  NoDup (map Sqlite.Booking.id l) -> In b l ->
  find (fun x => Sqlite.Booking.id x =? Sqlite.Booking.id b) l = Some b.
Proof.
  induction l as [|a l IH]; simpl; [contradiction|].
  intros N [->|Hb].
  - now rewrite Z.eqb_refl.
  - inversion N as [|? ? Hn N']; subst.
    destruct (Sqlite.Booking.id a =? Sqlite.Booking.id b) eqn:E.
    + exfalso. apply Hn. apply Z.eqb_eq in E. rewrite E.
      now apply in_map.
    + now apply IH.
Qed.

Lemma sameButStatus_setStatus (st : string) (b : Sqlite.Booking.t) :
  sameButStatus (Sqlite.Booking.setStatus st b) b.
Proof. unfold sameButStatus. simpl. repeat split. Qed.




(** ** Booking creation *)

(** The two ways [Sqlite.createBooking] can end. *)
Lemma createBooking_cases (db : Sqlite.Database) (user : Z) (now : string)
    (body : Sqlite.Body.t) :
  (fst (Sqlite.createBooking db user now body) = db
   /\ isOk (snd (Sqlite.createBooking db user now body)) = false)
  \/ exists room,
       find (fun r => Sqlite.Room.id r =? valZ (Sqlite.Body.roomId body))
            (Sqlite.rooms db) = Some room
       /\ filter (Sqlite.conflictRow (valZ (Sqlite.Body.roomId body))
                    (valS (Sqlite.Body.checkIn body))
                    (valS (Sqlite.Body.checkOut body)))
                 (Sqlite.bookings db) = []
       /\ falsyZ (Sqlite.Body.roomId body) = false
       /\ falsyS (Sqlite.Body.checkIn body) = false
       /\ falsyS (Sqlite.Body.checkOut body) = false
       /\ falsyS (Sqlite.Body.fullName body) = false
       /\ falsyS (Sqlite.Body.email body) = false
       /\ falsyS (Sqlite.Body.phone body) = false
       /\ Sqlite.createBooking db user now body
          = (Sqlite.mkDb (Sqlite.users db) (Sqlite.rooms db)
               (Sqlite.bookings db ++ [newRow db user now body])
               (Sqlite.lastBookingId db + 1),
             Ok (find (fun b => Sqlite.Booking.id b
                                =? Sqlite.lastBookingId db + 1)
                      (Sqlite.bookings db ++ [newRow db user now body]),
                 room)).
Proof.
  unfold Sqlite.createBooking.
  destruct (falsyZ (Sqlite.Body.roomId body)) eqn:F1; [left; auto|].
  destruct (falsyS (Sqlite.Body.checkIn body)) eqn:F2; [left; auto|].
  destruct (falsyS (Sqlite.Body.checkOut body)) eqn:F3; [left; auto|].
  destruct (falsyS (Sqlite.Body.fullName body)) eqn:F4; [left; auto|].
  destruct (falsyS (Sqlite.Body.email body)) eqn:F5; [left; auto|].
  destruct (falsyS (Sqlite.Body.phone body)) eqn:F6; [left; auto|].
  simpl.
  destruct (find _ (Sqlite.rooms db)) as [room|] eqn:R; [|left; auto].
  destruct (filter _ (Sqlite.bookings db)) as [|x l] eqn:C.
  - simpl. destruct (existsb _ (Sqlite.users db)); simpl; [|left; auto].
    right. exists room. repeat split; auto.
  - left. simpl List.length. rewrite Nat2Z.inj_succ.
    destruct (Z.succ _ >? 0) eqn:G; [auto|].
    exfalso. rewrite Z.gtb_ltb in G. apply Z.ltb_ge in G. lia.
Qed.

(** A booking is only accepted for a user who has a row in [users]. *)
Lemma createBooking_ok_user (db : Sqlite.Database) (user : Z) (now : string)
    (body : Sqlite.Body.t) :
  isOk (snd (Sqlite.createBooking db user now body)) = true ->
  exists u, In u (Sqlite.users db) /\ Sqlite.User.id u = user.
Proof.
  unfold Sqlite.createBooking.
  destruct (_ || _); [discriminate|].
  destruct (find _ (Sqlite.rooms db)); [|discriminate].
  destruct (_ >? 0); [discriminate|].
  destruct (existsb _ (Sqlite.users db)) eqn:U; [|discriminate].
  intros _. apply existsb_exists in U as (u & Hu & E).
  exists u. split; [exact Hu | now apply Z.eqb_eq].
Qed.

(** ** The status of a booking over the operations *)

Lemma nth_error_app_old {A} (l l' : list A) (k : nat) (x : A) :
  nth_error l k = Some x -> nth_error (l ++ l') k = Some x.
Proof.
  intros H. rewrite nth_error_app1; [exact H|].
  apply nth_error_Some. now rewrite H.
Qed.

Lemma nth_error_app_new {A} (l : list A) (y x : A) (k : nat) :
  nth_error l k = None -> nth_error (l ++ [y]) k = Some x -> x = y.
Proof.
  intros N H. apply nth_error_None in N.
  rewrite nth_error_app2 in H by exact N.
  destruct (k - List.length l)%nat as [|m]; simpl in H.
  - now inversion H.
  - destruct m; discriminate.
Qed.

(** Rows already present keep their place, and their status either stays or
    goes from confirmed to cancelled. *)
Lemma exec_old_rows (db : Sqlite.Database) (o : Sqlite.op) (k : nat)
    (b : Sqlite.Booking.t) :
  NoDup (map Sqlite.Booking.id (Sqlite.bookings db)) ->
  nth_error (Sqlite.bookings db) k = Some b ->
  exists b',
    nth_error (Sqlite.bookings (Sqlite.exec db o)) k = Some b'
    /\ (b' = b
        \/ (Sqlite.Booking.status b = "confirmed"
            /\ b' = Sqlite.Booking.setStatus "cancelled" b)).
Proof.
  intros N Hk. destruct o as [user now body | user now idParam | q]; simpl.
  - destruct (createBooking_cases db user now body)
      as [[E _] | (room & _ & _ & _ & _ & _ & _ & _ & _ & E)]; rewrite E.
    + exists b. auto.
    + exists b. simpl. split; [now apply nth_error_app_old | auto].
  - destruct (Sqlite.cancel db user now idParam) as [db' r] eqn:E.
    destruct r as [[]|st msg].
    + apply cancel_ok_inv in E
        as (i & booking & _ & F & _ & S & _ & ->). simpl.
      exists (cancelledAt (Some i) b). split.
      * rewrite nth_error_map, Hk. reflexivity.
      * unfold cancelledAt. simpl.
        destruct (Sqlite.Booking.id b =? i) eqn:I; [|auto].
        right. split; [|reflexivity].
        apply Z.eqb_eq in I. subst i.
        rewrite (find_by_id _ b N) in F by (eapply nth_error_In; eauto).
        now inversion F; subst.
    + pose proof (cancel_error_unchanged db user now idParam) as U.
      rewrite E in U. simpl in U. rewrite U by reflexivity.
      exists b. auto.
  - exists b. auto.
Qed.

(** A row that an operation adds is confirmed. *)
Lemma exec_new_rows (db : Sqlite.Database) (o : Sqlite.op) (k : nat)
    (b' : Sqlite.Booking.t) :
  nth_error (Sqlite.bookings db) k = None ->
  nth_error (Sqlite.bookings (Sqlite.exec db o)) k = Some b' ->
  Sqlite.Booking.status b' = "confirmed".
Proof.
  intros Hn Hk. destruct o as [user now body | user now idParam | q];
    simpl in Hk.
  - destruct (createBooking_cases db user now body)
      as [[E _] | (room & _ & _ & _ & _ & _ & _ & _ & _ & E)];
      rewrite E in Hk; simpl in Hk.
    + rewrite Hn in Hk. discriminate.
    + apply (nth_error_app_new _ _ _ _ Hn) in Hk. now subst.
  - destruct (Sqlite.cancel db user now idParam) as [db' r] eqn:E.
    destruct r as [[]|st msg].
    + apply cancel_ok_inv in E as (i & booking & _ & _ & _ & _ & _ & ->).
      simpl in Hk. rewrite nth_error_map, Hn in Hk. discriminate.
    + pose proof (cancel_error_unchanged db user now idParam) as U.
      rewrite E in U. simpl in U, Hk. rewrite U in Hk by reflexivity.
      rewrite Hn in Hk. discriminate.
  - rewrite Hn in Hk. discriminate.
Qed.

Lemma leb_false_lex (s t : string) : String.leb s t = false <-> ~ lex_le s t.
Proof.
  rewrite <- leb_lex_le. destruct (String.leb s t); split; intros H.
  - discriminate.
  - now exfalso.
  - discriminate.
  - reflexivity.
Qed.

(** C6.  With the booking ids distinct (the primary key), a cancellation
    request for an id and a user ends in exactly one of four ways.  If no
    booking of that id belongs to the user - there is none, or it is
    someone else's - the answer is 404 with one and the same text.
    Otherwise, if the booking is not confirmed the answer is 400; otherwise
    if its check-in day is not after today (the first ten characters of the
    clock reading; a check-in equal to today counts as not after) the
    answer is 400; in these three cases nothing is written.  Otherwise the
    answer is a success and the booking, in its place, now has the status
    "cancelled" and all its other fields as before; no row of that id is
    left with another status.
    Over all operations a booking's status either stays as it is or goes
    from confirmed to cancelled, so a cancelled booking stays cancelled, and
    a booking that an operation adds is confirmed. *)
Theorem C6_cancel_spec :
  forall db : Sqlite.Database,
    NoDup (map Sqlite.Booking.id (Sqlite.bookings db)) ->
    (forall (user : Z) (now idParam : string),
       let today := substring 0 10 now in
       let out := Sqlite.cancel db user now idParam in
       ((forall b, In b (Sqlite.bookings db) ->
                   parseInt idParam = Some (Sqlite.Booking.id b) ->
                   Sqlite.Booking.userId b <> user) ->
        out = (db, Error 404 "Booking not found"))
       /\
       (forall b, In b (Sqlite.bookings db) ->
          parseInt idParam = Some (Sqlite.Booking.id b) ->
          Sqlite.Booking.userId b = user ->
          (Sqlite.Booking.status b <> "confirmed" ->
           out = (db, Error 400 "Cannot cancel this booking"))
          /\ (Sqlite.Booking.status b = "confirmed" ->
              lex_le (Sqlite.Booking.checkIn b) today ->
              out = (db, Error 400 "Cannot cancel past or ongoing stays"))
          /\ (Sqlite.Booking.status b = "confirmed" ->
              Sqlite.Booking.checkIn b = today ->
              out = (db, Error 400 "Cannot cancel past or ongoing stays"))
          /\ (Sqlite.Booking.status b = "confirmed" ->
              ~ lex_le (Sqlite.Booking.checkIn b) today ->
              snd out = Ok tt
              /\ (forall k, nth_error (Sqlite.bookings db) k = Some b ->
                   nth_error (Sqlite.bookings (fst out)) k
                   = Some (Sqlite.Booking.setStatus "cancelled" b))
              /\ (forall k, nth_error (Sqlite.bookings db) k = Some b ->
                   exists b',
                     nth_error (Sqlite.bookings (fst out)) k = Some b'
                     /\ Sqlite.Booking.status b' = "cancelled"
                     /\ sameButStatus b' b)
              /\ (forall b', In b' (Sqlite.bookings (fst out)) ->
                   Sqlite.Booking.id b' = Sqlite.Booking.id b ->
                   Sqlite.Booking.status b' = "cancelled"))))
    /\
    (forall (o : Sqlite.op) (k : nat) (b : Sqlite.Booking.t),
       nth_error (Sqlite.bookings db) k = Some b ->
       exists b',
         nth_error (Sqlite.bookings (Sqlite.exec db o)) k = Some b'
         /\ (Sqlite.Booking.status b' = Sqlite.Booking.status b
             \/ (Sqlite.Booking.status b = "confirmed"
                 /\ Sqlite.Booking.status b' = "cancelled"))
         /\ (Sqlite.Booking.status b = "cancelled" ->
             Sqlite.Booking.status b' = "cancelled"))
    /\
    (forall (o : Sqlite.op) (k : nat) (b' : Sqlite.Booking.t),
       nth_error (Sqlite.bookings db) k = None ->
       nth_error (Sqlite.bookings (Sqlite.exec db o)) k = Some b' ->
       Sqlite.Booking.status b' = "confirmed").
Proof.
  intros db N. split; [|split].
  - intros user now idParam today out. split.
    + intros H. unfold out, Sqlite.cancel.
      destruct (find _ (Sqlite.bookings db)) as [booking|] eqn:F;
        [|reflexivity].
      apply find_some in F as [Hin Hid].
      destruct (parseInt idParam) as [i|]; [|discriminate].
      apply Z.eqb_eq in Hid.
      assert (Sqlite.Booking.userId booking <> user) as U
        by (apply H; [exact Hin | now rewrite Hid]).
      apply Z.eqb_neq in U. now rewrite U.
    + intros b Hin Hp Hu.
      unfold out, Sqlite.cancel. rewrite Hp. simpl Sqlite.sqlEq.
      rewrite (find_by_id _ b N Hin).
      apply Z.eqb_eq in Hu. rewrite Hu. simpl negb. cbv iota.
      fold today.
      split; [|split; [|split]].
      * intros S. apply String.eqb_neq in S. now rewrite S.
      * intros S L. apply String.eqb_eq in S. rewrite S. simpl negb.
        apply leb_lex_le in L. now rewrite L.
      * intros S L. apply String.eqb_eq in S. rewrite S. simpl negb.
        now rewrite L, leb_refl.
      * intros S L. apply String.eqb_eq in S. rewrite S. simpl negb.
        apply leb_false_lex in L. rewrite L. simpl.
        split; [reflexivity|]. split; [|split].
        -- intros k Hk. rewrite nth_error_map, Hk. simpl.
           now rewrite Z.eqb_refl.
        -- intros k Hk.
           exists (Sqlite.Booking.setStatus "cancelled" b). split.
           ++ rewrite nth_error_map, Hk. simpl. now rewrite Z.eqb_refl.
           ++ split; [reflexivity | apply sameButStatus_setStatus].
        -- intros b' Hb' Hid. apply in_map_iff in Hb' as (b0 & <- & Hb0).
           destruct (Sqlite.Booking.id b0 =? Sqlite.Booking.id b) eqn:E.
           ++ reflexivity.
           ++ apply Z.eqb_neq in E. now contradiction E.
  - intros o k b Hk.
    destruct (exec_old_rows db o k b N Hk) as (b' & Hk' & [->|[S ->]]).
    + exists b. auto.
    + exists (Sqlite.Booking.setStatus "cancelled" b). simpl. auto.
  - intros o k b'. apply exec_new_rows.
Qed.

Lemma C6_cancel_witness :
  NoDup (map Sqlite.Booking.id (Sqlite.bookings Scenario.booked))
  /\ Sqlite.cancel Scenario.booked 9 Scenario.clock "1"
     = (Scenario.booked, Error 404 "Booking not found")
  /\ Sqlite.cancel Scenario.booked 7 "2024-06-01T00:00:00.000Z" "1"
     = (Scenario.booked, Error 400 "Cannot cancel past or ongoing stays")
  /\ snd (Sqlite.cancel Scenario.booked 7 Scenario.clock "1") = Ok tt
  /\ exists b',
       nth_error
         (Sqlite.bookings
            (fst (Sqlite.cancel Scenario.booked 7 Scenario.clock "1"))) 0
       = Some b'
       /\ Sqlite.Booking.status b' = "cancelled"
       /\ sameButStatus b'
            (newRow Scenario.registered 7 Scenario.clock
               (Scenario.body 1 "2024-06-01" "2024-06-05")).
Proof.
  assert (NoDup (map Sqlite.Booking.id (Sqlite.bookings Scenario.booked)))
    as N by (vm_compute; repeat constructor; intros []).
  split; [exact N|].
  pose proof (proj1 (C6_cancel_spec Scenario.booked N)) as Spec.
  split.
  - apply (proj1 (Spec 9 Scenario.clock "1")).
    intros b [<-|[]] _. vm_compute. discriminate.
  - destruct (proj2 (Spec 7 "2024-06-01T00:00:00.000Z" "1")
                (newRow Scenario.registered 7 Scenario.clock
                   (Scenario.body 1 "2024-06-01" "2024-06-05"))
                (or_introl eq_refl) eq_refl eq_refl)
      as (_ & _ & Today & _).
    split; [apply Today; reflexivity|].
    destruct (proj2 (Spec 7 Scenario.clock "1")
                (newRow Scenario.registered 7 Scenario.clock
                   (Scenario.body 1 "2024-06-01" "2024-06-05"))
                (or_introl eq_refl) eq_refl eq_refl)
      as (_ & _ & _ & Success).
    destruct Success as (Hok & _ & Hrow & _).
    + reflexivity.
    + apply leb_false_lex. reflexivity.
    + split; [exact Hok|]. apply (Hrow 0%nat). reflexivity.
Defined.

(** ** C7: cancelling frees the room *)

(** C7.  Let B be a booking on room R written with both dates, and let a
    cancellation of B's id succeed.  Then a search for exactly B's former
    range, for a guest count that R's capacity covers, answers with a list
    that contains R, provided no confirmed booking other than B on R
    overlaps that range. *)
Theorem C7_cancel_frees_room :
  forall (db : Sqlite.Database) (user : Z) (now idParam : string)
         (B : Sqlite.Booking.t) (R : Sqlite.Room.t)
         (guests : option string) (g : Z),
    In B (Sqlite.bookings db) ->
    In R (Sqlite.rooms db) ->
    Sqlite.Booking.roomId B = Sqlite.Room.id R ->
    Sqlite.datedRow B ->
    parseInt idParam = Some (Sqlite.Booking.id B) ->
    snd (Sqlite.cancel db user now idParam) = Ok tt ->
    parseInt (orS guests "1") = Some g ->
    g <= Sqlite.Room.capacity R ->
    (forall b, In b (Sqlite.bookings db) ->
       Sqlite.Booking.id b <> Sqlite.Booking.id B ->
       Sqlite.Booking.status b = "confirmed" ->
       Sqlite.Booking.roomId b = Sqlite.Room.id R ->
       datesOverlap (Sqlite.Booking.checkIn B) (Sqlite.Booking.checkOut B)
         (Sqlite.Booking.checkIn b) (Sqlite.Booking.checkOut b) = false) ->
    exists result : list Sqlite.Room.t,
      Sqlite.search (fst (Sqlite.cancel db user now idParam))
        (Sqlite.Query.mk (Some (Sqlite.Booking.checkIn B))
           (Some (Sqlite.Booking.checkOut B)) guests)
      = Ok result
      /\ In R result.
Proof.
  intros db user now idParam B R guests g HB HR Hroom [Hin Hout] Hp Hok
         Hg Hcap Hfree.
  destruct (Sqlite.cancel db user now idParam) as [db' r] eqn:E.
  simpl in Hok. subst r.
  apply cancel_ok_inv in E as (i & booking & Hp' & _ & _ & _ & _ & ->).
  rewrite Hp in Hp'. inversion Hp'; subst i. clear Hp'.
  eexists. split.
  - apply (search_supplied _ _ (Sqlite.Booking.checkIn B)
                               (Sqlite.Booking.checkOut B));
      simpl; split; auto.
  - simpl. apply filter_In. split; [exact HR|].
    apply searchKeeps_spec. split.
    + exists g. auto.
    + intros b' Hb' Hs Hr. simpl in Hb'.
      apply in_map_iff in Hb' as (b & <- & Hb).
      unfold cancelledAt in *. simpl in Hs, Hr |- *.
      destruct (Sqlite.Booking.id b =? Sqlite.Booking.id B) eqn:I.
      * simpl in Hs. discriminate.
      * apply Z.eqb_neq in I. now apply Hfree.
Qed.

Lemma C7_cancel_frees_room_witness :
  exists result : list Sqlite.Room.t,
    Sqlite.search (fst (Sqlite.cancel Scenario.booked 7 Scenario.clock "1"))
      (Scenario.query "2024-06-01" "2024-06-05" (Some "2"))
    = Ok result
    /\ In (Sqlite.Room.mk 1 "Standard Room"
             "Cozy room with queen bed, city view, workstation." 79 2
             (Some "https://images.unsplash.com/photo-1560066984-138dadb4c035?q=80&w=1200&auto=format&fit=crop"))
          result.
Proof.
  apply (C7_cancel_frees_room Scenario.booked 7 Scenario.clock "1"
           (newRow Scenario.registered 7 Scenario.clock
              (Scenario.body 1 "2024-06-01" "2024-06-05"))
           (Sqlite.Room.mk 1 "Standard Room"
              "Cozy room with queen bed, city view, workstation." 79 2
              (Some "https://images.unsplash.com/photo-1560066984-138dadb4c035?q=80&w=1200&auto=format&fit=crop"))
           (Some "2") 2).
  - left. reflexivity.
  - left. reflexivity.
  - reflexivity.
  - split; discriminate.
  - reflexivity.
  - reflexivity.
  - reflexivity.
  - vm_compute. discriminate.
  - intros b [<-|[]] Hid. now contradiction Hid.
Defined.

(** ** C10: the stored fields *)




(** ** The no-double-booking invariant *)

Lemma clash_sym (a b : Sqlite.Booking.t) : Sqlite.clash a b = Sqlite.clash b a.
Proof.
  unfold Sqlite.clash. rewrite Z.eqb_sym, datesOverlap_sym.
  destruct (Sqlite.confirmed a), (Sqlite.confirmed b);
    now rewrite ?andb_true_r, ?andb_false_r.
Qed.

Lemma pairwise_spec {A} (rel : A -> A -> bool) (l : list A) :
  pairwise rel l = true <->
  forall i j a b, (i < j)%nat ->
    nth_error l i = Some a -> nth_error l j = Some b -> rel a b = true.
Proof.
  induction l as [|x l IH]; simpl.
  - split; [|reflexivity]. intros _ i j a b _ H. destruct i; discriminate.
  - rewrite andb_true_iff, forallb_forall, IH. split.
    + intros [Hx Hl] i j a b Hij Hi Hj.
      destruct j as [|j]; [lia|]. simpl in Hj.
      destruct i as [|i]; simpl in Hi.
      * inversion Hi; subst. apply Hx. eapply nth_error_In; eauto.
      * apply (Hl i j); [lia | assumption | assumption].
    + intros H. split.
      * intros b Hb. apply In_nth_error in Hb as [j Hj].
        apply (H O (S j)); [lia | reflexivity | exact Hj].
      * intros i j a b Hij Hi Hj. apply (H (S i) (S j)); [lia | auto | auto].
Qed.

Lemma pairwise_snoc {A} (rel : A -> A -> bool) (l : list A) (x : A) :
  pairwise rel (l ++ [x])
  = pairwise rel l && forallb (fun a => rel a x) l.
Proof.
  induction l as [|a l IH]; simpl; [reflexivity|].
  rewrite forallb_app, IH. simpl. rewrite andb_true_r.
  destruct (forallb (rel a) l), (rel a x), (pairwise rel l); reflexivity.
Qed.

Lemma pairwise_map {A} (rel : A -> A -> bool) (f : A -> A) (l : list A) :
  (forall a b, rel a b = true -> rel (f a) (f b) = true) ->
  pairwise rel l = true -> pairwise rel (map f l) = true.
Proof.
  intros Hf. induction l as [|x l IH]; simpl; [reflexivity|].
  rewrite !andb_true_iff, !forallb_forall. intros [Hx Hl]. split.
  - intros b Hb. apply in_map_iff in Hb as (a & <- & Ha). auto.
  - auto.
Qed.

(** The check [Sqlite.noDoubleBooking] says what the invariant says: no two
    rows at different places of the ledger clash. *)
Lemma noDoubleBooking_spec (l : list Sqlite.Booking.t) :
  Sqlite.noDoubleBooking l = true <->
  forall i j a b, (i < j)%nat ->
    nth_error l i = Some a -> nth_error l j = Some b ->
    Sqlite.clash a b = false.
Proof.
  unfold Sqlite.noDoubleBooking. rewrite pairwise_spec.
  split; intros H i j a b Hij Hi Hj.
  - apply negb_true_iff. eapply H; eauto.
  - apply negb_true_iff. eapply H; eauto.
Qed.

(** C2.  Serial execution on the better-sqlite3 ledger: room 1 holds one
    confirmed booking, 2024-06-01 to 2024-06-05, so the invariant holds; a
    booking request for the same room and 2024-06-03 to 2024-06-06 is then
    accepted, and the ledger afterwards holds two confirmed bookings of
    room 1 whose ranges overlap. *)
Theorem C2_serial_create_double_books :
  Sqlite.noDoubleBooking (Sqlite.bookings Scenario.booked) = true
  /\ isOk (snd (Sqlite.createBooking Scenario.booked 9 Scenario.clock
                  (Scenario.body 1 "2024-06-03" "2024-06-06"))) = true
  /\ Sqlite.noDoubleBooking
       (Sqlite.bookings
          (Sqlite.run Scenario.booked
             [Sqlite.CreateBooking 9 Scenario.clock
                (Scenario.body 1 "2024-06-03" "2024-06-06")])) = false.
Proof. vm_compute. auto. Qed.

(** C4.  On the ledger where room 1 is booked for 2024-06-01 to
    2024-06-05, one confirmed booking overlaps the requested range
    2024-06-03 to 2024-06-06 by the overlap predicate, and yet the answer
    of [Sqlite.createBooking] is a success, not the 409 conflict. *)
Theorem C4_conflict_missed :
  overlapCount Scenario.booked 1 "2024-06-03" "2024-06-06" = 1%nat
  /\ isConflict (snd (Sqlite.createBooking Scenario.booked 9 Scenario.clock
                        (Scenario.body 1 "2024-06-03" "2024-06-06"))) = false
  /\ isOk (snd (Sqlite.createBooking Scenario.booked 9 Scenario.clock
                  (Scenario.body 1 "2024-06-03" "2024-06-06"))) = true.
Proof. vm_compute. auto. Qed.

(** C8.  On the ledger where room 1 is booked for 2024-06-05 to
    2024-06-08, a request with every field present for room 1 and the
    inverted range check-in 2024-06-10, check-out 2024-06-01 overlaps no
    confirmed booking by the overlap predicate, and yet
    [Sqlite.createBooking] answers 409. *)
Theorem C8_inverted_range_rejected :
  overlapCount Scenario.bookedLate 1 "2024-06-10" "2024-06-01" = 0%nat
  /\ (exists room, In room (Sqlite.rooms Scenario.bookedLate)
                   /\ Sqlite.Room.id room = 1)
  /\ Sqlite.createBooking Scenario.bookedLate 9 Scenario.clock
       (Scenario.body 1 "2024-06-10" "2024-06-01")
     = (Scenario.bookedLate,
        Error 409 "Room no longer available for those dates").
Proof.
  split; [reflexivity|]. split; [|reflexivity].
  eexists. split; [left; reflexivity | reflexivity].
Qed.

(** C1.  Two requests for the same room with overlapping ranges.  In the
    mongoose rendition, when the event loop alternates between the two
    handlers, both pass the overlap query before either inserts, both are
    answered with a success, and the ledger ends with two confirmed
    bookings that clash.  In the better-sqlite3 rendition a handler runs
    to its end before the next starts, and in either order both requests
    are accepted. *)
Theorem C1_concurrent_double_booking :
  datesOverlap "2024-06-01" "2024-06-05" "2024-06-03" "2024-06-06" = true
  /\ (exists db' ra rb,
        Mongo.schedule [0; 1; 0; 1; 0; 1]%nat Scenario.inFlight
        = (db', [Mongo.Done (Ok ra); Mongo.Done (Ok rb)])
        /\ Mongo.noDoubleBooking (Mongo.bookings Scenario.mongoDb) = true
        /\ Mongo.noDoubleBooking (Mongo.bookings db') = false)
  /\ Sqlite.noDoubleBooking
       (Sqlite.bookings
          (Sqlite.run Scenario.registered
             [Sqlite.CreateBooking 7 Scenario.clock
                (Scenario.body 1 "2024-06-01" "2024-06-05");
              Sqlite.CreateBooking 9 Scenario.clock
                (Scenario.body 1 "2024-06-03" "2024-06-06")])) = false
  /\ Sqlite.noDoubleBooking
       (Sqlite.bookings
          (Sqlite.run Scenario.registered
             [Sqlite.CreateBooking 9 Scenario.clock
                (Scenario.body 1 "2024-06-03" "2024-06-06");
              Sqlite.CreateBooking 7 Scenario.clock
                (Scenario.body 1 "2024-06-01" "2024-06-05")])) = false.
Proof.
  split; [reflexivity|]. split; [|split; reflexivity].
  do 3 eexists. split; [vm_compute; reflexivity|].
  split; reflexivity.
Qed.

(** ** What holds of the code around the failures above *)

(** Cancelling keeps the invariant: it only takes rows out of the confirmed
    set. *)
Lemma cancel_keeps_invariant (db : Sqlite.Database) (user : Z)
    (now idParam : string) :
  Sqlite.noDoubleBooking (Sqlite.bookings db) = true ->
  Sqlite.noDoubleBooking
    (Sqlite.bookings (fst (Sqlite.cancel db user now idParam))) = true.
Proof.
  intros H. destruct (Sqlite.cancel db user now idParam) as [db' r] eqn:E.
  destruct r as [[]|st msg].
  - apply cancel_ok_inv in E as (i & booking & _ & _ & _ & _ & _ & ->).
    simpl. apply pairwise_map; [|exact H].
    intros a b. rewrite !negb_true_iff. unfold cancelledAt, Sqlite.clash.
    simpl Sqlite.sqlEq. intros C.
    destruct (Sqlite.Booking.id a =? i), (Sqlite.Booking.id b =? i);
      simpl; rewrite ?andb_false_r; auto.
  - pose proof (cancel_error_unchanged db user now idParam) as U.
    rewrite E in U. simpl in *. now rewrite U.
Qed.

(** The conflict query of the better-sqlite3 rendition selects the confirmed
    bookings of the room that begin before the requested check-in and end
    after the requested check-out. *)
Lemma conflictRow_inside (roomId : Z) (checkIn checkOut : string)
    (b : Sqlite.Booking.t) :
  Sqlite.conflictRow roomId checkIn checkOut b = true <->
  Sqlite.Booking.roomId b = roomId
  /\ Sqlite.Booking.status b = "confirmed"
  /\ ~ lex_le checkIn (Sqlite.Booking.checkIn b)
  /\ ~ lex_le (Sqlite.Booking.checkOut b) checkOut.
Proof.
  unfold Sqlite.conflictRow.
  rewrite !andb_true_iff, negb_true_iff, orb_false_iff.
  rewrite Z.eqb_eq, String.eqb_eq, !leb_false_lex. tauto.
Qed.

(** [Sqlite.createBooking] ends in a success, in one of the three error
    kinds - validation (400), not found (404), conflict (409) - or in the
    failure of the INSERT (500). *)
Lemma createBooking_outcomes (db : Sqlite.Database) (user : Z)
    (now : string) (body : Sqlite.Body.t) :
  let res := snd (Sqlite.createBooking db user now body) in
  isOk res || isValidation res || isNotFound res || isConflict res
  || isServerError res = true.
Proof.
  intros res. unfold res, Sqlite.createBooking.
  destruct (falsyZ _ || _ || _ || _ || _ || _); [reflexivity|].
  destruct (find _ (Sqlite.rooms db)); [|reflexivity].
  destruct (_ >? 0); [reflexivity|].
  destruct (existsb _ (Sqlite.users db)); reflexivity.
Qed.

(** [Sqlite.cancel] ends in a success, in not found (404) or in validation
    (400). *)
Lemma cancel_outcomes (db : Sqlite.Database) (user : Z)
    (now idParam : string) :
  let res := snd (Sqlite.cancel db user now idParam) in
  isOk res || isNotFound res || isValidation res = true.
Proof.
  intros res. unfold res, Sqlite.cancel.
  destruct (find _ (Sqlite.bookings db)) as [booking|]; [|reflexivity].
  destruct (negb _); [reflexivity|].
  destruct (negb _); [reflexivity|].
  destruct (String.leb _ _); reflexivity.
Qed.

(** An error of [Sqlite.createBooking] writes nothing. *)
Lemma createBooking_error_unchanged (db : Sqlite.Database) (user : Z)
    (now : string) (body : Sqlite.Body.t) :
  isOk (snd (Sqlite.createBooking db user now body)) = false ->
  fst (Sqlite.createBooking db user now body) = db.
Proof.
  destruct (createBooking_cases db user now body)
    as [[E _] | (room & _ & _ & _ & _ & _ & _ & _ & _ & E)].
  - auto.
  - rewrite E. discriminate.
Qed.

Lemma find_last_by_id (l : list Sqlite.Booking.t) (row : Sqlite.Booking.t) :
  Forall (fun b => Sqlite.Booking.id b < Sqlite.Booking.id row) l ->
  find (fun b => Sqlite.Booking.id b =? Sqlite.Booking.id row) (l ++ [row])
  = Some row.
Proof.
  induction 1 as [|a l Ha _ IH]; simpl.
  - now rewrite Z.eqb_refl.
  - destruct (Sqlite.Booking.id a =? Sqlite.Booking.id row) eqn:E.
    + apply Z.eqb_eq in E. lia.
    + exact IH.
Qed.

(** A success of [Sqlite.createBooking] appends one confirmed row, leaves
    every other table alone, and returns that row with the room of the
    requested id. *)
Lemma createBooking_ok_inserts (db db' : Sqlite.Database) (user : Z)
    (now : string) (body : Sqlite.Body.t)
    (booking : option Sqlite.Booking.t) (room : Sqlite.Room.t) :
  keyed db ->
  Sqlite.createBooking db user now body = (db', Ok (booking, room)) ->
  Sqlite.bookings db' = Sqlite.bookings db ++ [newRow db user now body]
  /\ Sqlite.Booking.status (newRow db user now body) = "confirmed"
  /\ booking = Some (newRow db user now body)
  /\ In room (Sqlite.rooms db)
  /\ Some (Sqlite.Room.id room) = Sqlite.Body.roomId body
  /\ Sqlite.rooms db' = Sqlite.rooms db
  /\ Sqlite.users db' = Sqlite.users db.
Proof.
  intros [_ K] H.
  destruct (createBooking_cases db user now body)
    as [[_ E] | (room' & R & _ & F1 & _ & _ & _ & _ & _ & E)].
  - rewrite H in E. discriminate.
  - rewrite H in E. inversion E; subst. clear E. simpl.
    apply find_some in R as [Rin Rid]. apply Z.eqb_eq in Rid.
    repeat split; auto.
    + change (Sqlite.lastBookingId db + 1)
        with (Sqlite.Booking.id (newRow db user now body)).
      apply find_last_by_id. eapply Forall_impl; [|exact K].
      simpl. intros; lia.
    + rewrite Rid. symmetry. apply (falsyZ_false _ F1).
Qed.

(** Whether a request of a registered user with every field present for
    an existing room is accepted depends on the conflict query alone: no
    comparison of [checkOut] with [checkIn] takes place. *)
Lemma createBooking_no_date_check (db : Sqlite.Database) (user : Z)
    (now : string) (body : Sqlite.Body.t) (room : Sqlite.Room.t) :
  (exists u, In u (Sqlite.users db) /\ Sqlite.User.id u = user) ->
  falsyZ (Sqlite.Body.roomId body) = false ->
  falsyS (Sqlite.Body.checkIn body) = false ->
  falsyS (Sqlite.Body.checkOut body) = false ->
  falsyS (Sqlite.Body.fullName body) = false ->
  falsyS (Sqlite.Body.email body) = false ->
  falsyS (Sqlite.Body.phone body) = false ->
  find (fun r => Sqlite.Room.id r =? valZ (Sqlite.Body.roomId body))
       (Sqlite.rooms db) = Some room ->
  (forall b, In b (Sqlite.bookings db) ->
     Sqlite.conflictRow (valZ (Sqlite.Body.roomId body))
       (valS (Sqlite.Body.checkIn body)) (valS (Sqlite.Body.checkOut body))
       b = false) ->
  isOk (snd (Sqlite.createBooking db user now body)) = true.
Proof.
  intros (u & Hu & Uid) F1 F2 F3 F4 F5 F6 R C. unfold Sqlite.createBooking.
  rewrite F1, F2, F3, F4, F5, F6, R. simpl.
  assert (existsb (fun x => Sqlite.User.id x =? user) (Sqlite.users db)
          = true) as E
    by (apply existsb_exists; exists u; split; [exact Hu | now apply Z.eqb_eq]).
  replace (filter _ (Sqlite.bookings db)) with (@nil Sqlite.Booking.t).
  - simpl. now rewrite E.
  - symmetry. induction (Sqlite.bookings db) as [|x l IH]; simpl.
    + reflexivity.
    + rewrite (C x) by now left. apply IH. intros b Hb. apply C. now right.
Qed.

(** *** The ledger constraints are kept by every operation *)

Lemma keyed_fresh : keyed Sqlite.freshDb.
Proof. split; constructor. Qed.

Lemma keyed_exec (db : Sqlite.Database) (o : Sqlite.op) :
  keyed db -> keyed (Sqlite.exec db o).
Proof.
  intros [N K]. destruct o as [user now body | user now idParam | q]; simpl.
  - destruct (createBooking_cases db user now body)
      as [[E _] | (room & _ & _ & _ & _ & _ & _ & _ & _ & E)]; rewrite E.
    + now split.
    + simpl. split; simpl.
      * rewrite map_app. simpl.
        apply NoDup_app; [exact N | repeat constructor; intros [] |].
        intros i Hi [<-|[]]. apply in_map_iff in Hi as (b & Hb & Hin).
        rewrite Forall_forall in K. specialize (K b Hin). lia.
      * apply Forall_app. split.
        -- eapply Forall_impl; [|exact K]. simpl. intros; lia.
        -- repeat constructor. simpl. lia.
  - destruct (Sqlite.cancel db user now idParam) as [db' r] eqn:E.
    destruct r as [[]|st msg].
    + apply cancel_ok_inv in E as (i & booking & _ & _ & _ & _ & _ & ->).
      assert (forall b, Sqlite.Booking.id (cancelledAt (Some i) b)
                        = Sqlite.Booking.id b) as Hid.
      { intros b. unfold cancelledAt. simpl.
        now destruct (Sqlite.Booking.id b =? i). }
      split; simpl.
      * rewrite map_map. erewrite map_ext; [exact N | exact Hid].
      * apply Forall_map. eapply Forall_impl; [|exact K].
        intros b Hb. simpl. now rewrite Hid.
    + pose proof (cancel_error_unchanged db user now idParam) as U.
      rewrite E in U. simpl in *. rewrite U by reflexivity. now split.
  - now split.
Qed.

Lemma dated_exec (db : Sqlite.Database) (o : Sqlite.op) :
  Forall Sqlite.datedRow (Sqlite.bookings db) ->
  Forall Sqlite.datedRow (Sqlite.bookings (Sqlite.exec db o)).
Proof.
  intros D. destruct o as [user now body | user now idParam | q]; simpl.
  - destruct (createBooking_cases db user now body)
      as [[E _] | (room & _ & _ & _ & F2 & F3 & _ & _ & _ & E)]; rewrite E.
    + exact D.
    + simpl. apply Forall_app. split; [exact D|].
      repeat constructor; simpl; now apply falsyS_valS.
  - destruct (Sqlite.cancel db user now idParam) as [db' r] eqn:E.
    destruct r as [[]|st msg].
    + apply cancel_ok_inv in E as (i & booking & _ & _ & _ & _ & _ & ->).
      simpl. apply Forall_map. eapply Forall_impl; [|exact D].
      intros b Hb. unfold cancelledAt. simpl.
      now destruct (Sqlite.Booking.id b =? i).
    + pose proof (cancel_error_unchanged db user now idParam) as U.
      rewrite E in U. simpl in *. now rewrite U.
  - exact D.
Qed.

(** *** The mongoose handler, run without interleaving, keeps the invariant *)

Lemma mongo_overlapFilter_clash (a b : Mongo.Booking.t) :
  Mongo.overlapFilter (Mongo.Booking.roomId b) (Mongo.Booking.checkIn b)
    (Mongo.Booking.checkOut b) a = false ->
  Mongo.clash a b = false.
Proof.
  unfold Mongo.overlapFilter, Mongo.clash, Mongo.confirmed.
  rewrite datesOverlap_sym. unfold datesOverlap.
  destruct (String.eqb (Mongo.Booking.roomId a) (Mongo.Booking.roomId b));
    [|reflexivity].
  destruct (String.eqb (Mongo.Booking.status a) "confirmed"); [|reflexivity].
  simpl. intros ->. now rewrite andb_false_r.
Qed.

Lemma mongo_create_keeps_invariant (db : Mongo.Database)
    (req : Mongo.CreateRequest) :
  Mongo.noDoubleBooking (Mongo.bookings db) = true ->
  Mongo.noDoubleBooking
    (Mongo.bookings (fst (Mongo.createBooking db req))) = true.
Proof.
  intros H. unfold Mongo.createBooking, Mongo.createBookingStart.
  destruct (_ || _); [exact H|]. simpl.
  destruct (find _ (Mongo.rooms db)) as [room|]; [|exact H]. simpl.
  destruct (find _ (Mongo.bookings db)) as [hit|] eqn:F; [exact H|]. simpl.
  unfold Mongo.noDoubleBooking. rewrite pairwise_snoc.
  apply andb_true_iff. split; [exact H|].
  apply forallb_forall. intros a Ha. apply negb_true_iff.
  apply mongo_overlapFilter_clash. apply (find_none _ _ F a Ha).
Qed.

(** Run without interleaving, the mongoose handler refuses the second of
    the two overlapping requests. *)
Lemma mongo_serial_refuses :
  exists db' ra,
    Mongo.schedule [0; 0; 0; 1; 1; 1]%nat Scenario.inFlight
    = (db', [Mongo.Done (Ok ra);
             Mongo.Done (Error 409 "Room no longer available for those dates")])
    /\ Mongo.noDoubleBooking (Mongo.bookings db') = true.
Proof. do 2 eexists. split; [vm_compute; reflexivity | reflexivity]. Qed.

(** The write of the mongoose cancellation changes the status of the
    documents with the [_id] of the booking and nothing else. *)
Lemma mongo_cancel_frame (db : Mongo.Database) (req : Mongo.CancelRequest)
    (booking : Mongo.Booking.t) (k : nat) (b : Mongo.Booking.t) :
  let db' := fst (Mongo.cancelStep db (Mongo.AtSave req booking)) in
  Mongo.rooms db' = Mongo.rooms db
  /\ (nth_error (Mongo.bookings db) k = Some b ->
      Mongo.Booking._id b <> Mongo.Booking._id booking ->
      nth_error (Mongo.bookings db') k = Some b)
  /\ (nth_error (Mongo.bookings db) k = Some b ->
      Mongo.Booking._id b = Mongo.Booking._id booking ->
      nth_error (Mongo.bookings db') k
      = Some (Mongo.Booking.setStatus "cancelled" b)).
Proof.
  simpl. split; [reflexivity|].
  split; intros Hk Hid; rewrite nth_error_map, Hk; simpl.
  - apply String.eqb_neq in Hid. now rewrite Hid.
  - apply String.eqb_eq in Hid. now rewrite Hid.
Qed.

(** The document that the mongoose handler inserts holds the empty string
    for absent or empty special requests. *)
Lemma mongo_create_fields (db : Mongo.Database) (req : Mongo.CreateRequest)
    (room : Mongo.Room.t) :
  exists doc,
    Mongo.step db (Mongo.AtCreate req room)
    = (Mongo.mkDb (Mongo.rooms db) (Mongo.bookings db ++ [doc]),
       Mongo.Done (Ok (doc, room)))
    /\ Mongo.Booking.status doc = "confirmed"
    /\ Mongo.Booking.userId doc = Mongo.user req
    /\ (falsyS (Mongo.Body.specialRequests (Mongo.body req)) = true ->
        Mongo.Booking.specialRequests doc = "").
Proof.
  eexists. split; [reflexivity|]. simpl. repeat split.
  intros S. now rewrite (falsyS_orS _ _ S).
Qed.

(** *** Ranges that run forward *)

Lemma lex_le_trans (s t u : string) : lex_le s t -> lex_le t u -> lex_le s u.
Proof.
  intros H. revert u. induction H as [t|c d s t L|c s t _ IH]; intros u Hu.
  - constructor.
  - inversion Hu; subst.
    + apply lex_le_less. lia.
    + now apply lex_le_less.
  - inversion Hu; subst.
    + now apply lex_le_less.
    + apply lex_le_same. now apply IH.
Qed.

(** For a requested range whose check-out is not before its check-in, a
    request of a registered user with every field present for an existing
    room that overlaps no confirmed booking of the room is accepted by
    [Sqlite.createBooking]. *)
Lemma createBooking_accepts_forward (db : Sqlite.Database) (user : Z)
    (now : string) (body : Sqlite.Body.t) (room : Sqlite.Room.t) :
  (exists u, In u (Sqlite.users db) /\ Sqlite.User.id u = user) ->
  falsyZ (Sqlite.Body.roomId body) = false ->
  falsyS (Sqlite.Body.checkIn body) = false ->
  falsyS (Sqlite.Body.checkOut body) = false ->
  falsyS (Sqlite.Body.fullName body) = false ->
  falsyS (Sqlite.Body.email body) = false ->
  falsyS (Sqlite.Body.phone body) = false ->
  find (fun r => Sqlite.Room.id r =? valZ (Sqlite.Body.roomId body))
       (Sqlite.rooms db) = Some room ->
  lex_le (valS (Sqlite.Body.checkIn body)) (valS (Sqlite.Body.checkOut body)) ->
  roomFree db (valS (Sqlite.Body.checkIn body))
    (valS (Sqlite.Body.checkOut body)) room ->
  isOk (snd (Sqlite.createBooking db user now body)) = true.
Proof.
  intros U F1 F2 F3 F4 F5 F6 R Fwd Free.
  apply (createBooking_no_date_check db user now body room); auto.
  intros b Hb.
  destruct (Sqlite.conflictRow _ _ _ b) eqn:C; [|reflexivity].
  exfalso. apply conflictRow_inside in C as (Hr & Hs & Hin & Hout).
  apply find_some in R as [_ Rid]. apply Z.eqb_eq in Rid.
  assert (Sqlite.Booking.roomId b = Sqlite.Room.id room) as Hr'
    by now rewrite Hr, Rid.
  apply (Free b Hb Hs) in Hr'. apply datesOverlap_false in Hr' as [L|L];
    apply leb_lex_le in L.
  - apply Hin. eapply lex_le_trans; eauto.
  - apply Hout. eapply lex_le_trans; eauto.
Qed.

(** *** Scenarios A and C of section 8 *)

Example scenarioA :
  exists rooms,
    Sqlite.search Sqlite.freshDb
      (Scenario.query "2024-06-01" "2024-06-05" (Some "2")) = Ok rooms
    /\ map Sqlite.Room.id rooms = [1; 2; 3].
Proof. eexists. split; reflexivity. Qed.

Example scenarioC :
  isOk (snd (Sqlite.createBooking Scenario.booked 9 Scenario.clock
               (Scenario.body 1 "2024-06-05" "2024-06-08"))) = true.
Proof. reflexivity. Qed.

(** * Further properties of the code *)

(** ** Sequences of operations on the better-sqlite3 ledger *)

(** The three things an operation can do to the database. *)
Lemma exec_cases (db : Sqlite.Database) (o : Sqlite.op) :
  Sqlite.exec db o = db
  \/ (exists user now body room,
        find (fun r => Sqlite.Room.id r =? valZ (Sqlite.Body.roomId body))
             (Sqlite.rooms db) = Some room
        /\ falsyZ (Sqlite.Body.roomId body) = false
        /\ falsyS (Sqlite.Body.checkIn body) = false
        /\ falsyS (Sqlite.Body.checkOut body) = false
        /\ falsyS (Sqlite.Body.fullName body) = false
        /\ falsyS (Sqlite.Body.email body) = false
        /\ falsyS (Sqlite.Body.phone body) = false
        /\ Sqlite.exec db o
           = Sqlite.mkDb (Sqlite.users db) (Sqlite.rooms db)
               (Sqlite.bookings db ++ [newRow db user now body])
               (Sqlite.lastBookingId db + 1))
  \/ (exists i booking,
        find (fun b => Sqlite.Booking.id b =? i) (Sqlite.bookings db)
        = Some booking
        /\ Sqlite.Booking.status booking = "confirmed"
        /\ Sqlite.exec db o
           = Sqlite.mkDb (Sqlite.users db) (Sqlite.rooms db)
               (map (cancelledAt (Some i)) (Sqlite.bookings db))
               (Sqlite.lastBookingId db)).
Proof.
  destruct o as [user now body | user now idParam | q]; simpl.
  - destruct (createBooking_cases db user now body)
      as [[E _] | (room & R & _ & F1 & F2 & F3 & F4 & F5 & F6 & E)].
    + now left.
    + right. left. exists user, now, body, room. rewrite E. simpl.
      repeat split; auto.
  - destruct (Sqlite.cancel db user now idParam) as [db' r] eqn:E.
    destruct r as [[]|st msg].
    + apply cancel_ok_inv in E as (i & booking & _ & F & _ & S & _ & ->).
      right. right. exists i, booking. auto.
    + pose proof (cancel_error_unchanged db user now idParam) as U.
      rewrite E in U. left. simpl in *. now apply U.
  - now left.
Qed.

(** A property kept by every operation is kept by every sequence. *)
Lemma run_invariant (P : Sqlite.Database -> Prop) :
  (forall db o, P db -> P (Sqlite.exec db o)) ->
  forall ops db, P db -> P (Sqlite.run db ops).
Proof.
  intros Step ops. unfold Sqlite.run.
  induction ops as [|o ops IH]; intros db H; simpl; auto.
Qed.

Lemma cancelledAt_id (i : option Z) (b : Sqlite.Booking.t) :
  Sqlite.Booking.id (cancelledAt i b) = Sqlite.Booking.id b.
Proof.
  unfold cancelledAt. now destruct (Sqlite.sqlEq (Sqlite.Booking.id b) i).
Qed.

(** X1.  Seeding an empty catalogue puts the three starter rooms in it -
    Standard Room, Deluxe Room and Family Suite, for 2, 3 and 5 guests, at
    79, 129 and 199 a night, with the ids 1, 2, 3 - and seeding a catalogue
    that has rooms changes nothing; seeding twice is seeding once, so the
    starter rooms are never duplicated.  Users, bookings and the id
    counter are not touched. *)
Theorem X1_seed_idempotent :
  forall db : Sqlite.Database,
    (Sqlite.rooms db = [] ->
     Sqlite.rooms (Sqlite.seed db) = Sqlite.seedRooms
     /\ map (fun r => (Sqlite.Room.id r, Sqlite.Room.name r,
                       Sqlite.Room.pricePerNight r, Sqlite.Room.capacity r))
            (Sqlite.rooms (Sqlite.seed db))
        = [(1, "Standard Room", 79, 2); (2, "Deluxe Room", 129, 3);
           (3, "Family Suite", 199, 5)])
    /\ (Sqlite.rooms db <> [] -> Sqlite.seed db = db)
    /\ Sqlite.seed (Sqlite.seed db) = Sqlite.seed db
    /\ Sqlite.users (Sqlite.seed db) = Sqlite.users db
    /\ Sqlite.bookings (Sqlite.seed db) = Sqlite.bookings db
    /\ Sqlite.lastBookingId (Sqlite.seed db) = Sqlite.lastBookingId db.
Proof.
  intros db.
  assert (Sqlite.rooms db = []
          /\ Sqlite.seed db
             = Sqlite.mkDb (Sqlite.users db) Sqlite.seedRooms
                 (Sqlite.bookings db) (Sqlite.lastBookingId db)
          \/ Sqlite.rooms db <> [] /\ Sqlite.seed db = db) as [[R E]|[R E]].
  { unfold Sqlite.seed. destruct (Sqlite.rooms db) as [|r l].
    - left. auto.
    - right. split; [discriminate|].
      destruct (Z.of_nat (List.length (r :: l)) =? 0) eqn:Z0;
        [|reflexivity].
      apply Z.eqb_eq in Z0. simpl List.length in Z0. lia. }
  - rewrite E. simpl.
    split; [intros _; split; reflexivity|].
    split; [intros N; now contradiction N|].
    split; [reflexivity|]. auto.
  - rewrite E, E.
    split; [intros N; now contradiction R|].
    split; [reflexivity|]. auto.
Qed.

Lemma X1_seed_idempotent_witness :
  Sqlite.rooms (Sqlite.seed (Sqlite.mkDb [] [] [] 0)) = Sqlite.seedRooms
  /\ Sqlite.seed Scenario.booked = Scenario.booked.
Proof.
  split.
  - apply (proj1 (X1_seed_idempotent (Sqlite.mkDb [] [] [] 0))). reflexivity.
  - apply (proj1 (proj2 (X1_seed_idempotent Scenario.booked))). discriminate.
Defined.

(** X2.  Starting from the seeded database with no booking yet, whoever
    the registered users are, after any sequence of operations the booking
    ids are 1, 2, ..., n in the order of insertion, n being both the number
    of bookings and the value of the id counter: no id is skipped,
    repeated or reused. *)
Theorem X2_booking_ids_sequential :
  forall (users : list Sqlite.User.t) (ops : list Sqlite.op),
    let db :=
      Sqlite.run (Sqlite.mkDb users (Sqlite.rooms Sqlite.freshDb) [] 0) ops in
    map Sqlite.Booking.id (Sqlite.bookings db)
    = map Z.of_nat (seq 1 (List.length (Sqlite.bookings db)))
    /\ Sqlite.lastBookingId db = Z.of_nat (List.length (Sqlite.bookings db)).
Proof.
  intros users ops.
  apply (run_invariant (fun db =>
           map Sqlite.Booking.id (Sqlite.bookings db)
           = map Z.of_nat (seq 1 (List.length (Sqlite.bookings db)))
           /\ Sqlite.lastBookingId db
              = Z.of_nat (List.length (Sqlite.bookings db)))).
  - clear ops. intros db o [Hids Hlast].
    destruct (exec_cases db o)
      as [-> | [(user & now & body & room & _ & _ & _ & _ & _ & _ & _ & ->)
               | (i & booking & _ & _ & ->)]]; simpl.
    + now split.
    + rewrite length_app, Nat.add_comm. simpl List.length. split.
      * rewrite map_app, Hids, seq_S, map_app. simpl.
        rewrite Hlast. do 2 f_equal. lia.
      * rewrite Hlast. lia.
    + rewrite length_map, map_map. split; [|exact Hlast].
      rewrite <- Hids. apply map_ext. intros b. apply cancelledAt_id.
  - split; reflexivity.
Qed.

(** X3.  No sequence of bookings, cancellations and searches changes the
    room catalogue or the users. *)
Theorem X3_catalogue_untouched :
  forall (db : Sqlite.Database) (ops : list Sqlite.op),
    Sqlite.rooms (Sqlite.run db ops) = Sqlite.rooms db
    /\ Sqlite.users (Sqlite.run db ops) = Sqlite.users db.
Proof.
  intros db ops.
  apply (run_invariant (fun d =>
           Sqlite.rooms d = Sqlite.rooms db
           /\ Sqlite.users d = Sqlite.users db)); [|now split].
  clear ops. intros d o [Hr Hu].
  destruct (exec_cases d o)
    as [-> | [(user & now & body & room & _ & _ & _ & _ & _ & _ & _ & ->)
             | (i & booking & _ & _ & ->)]]; simpl; now split.
Qed.

Lemma cancelledAt_roomId (i : option Z) (b : Sqlite.Booking.t) :
  Sqlite.Booking.roomId (cancelledAt i b) = Sqlite.Booking.roomId b.
Proof.
  unfold cancelledAt. now destruct (Sqlite.sqlEq (Sqlite.Booking.id b) i).
Qed.

(** X4.  If every booking is on a room of the catalogue, this is still so
    after any sequence of operations: a booking is only ever written for a
    room that was looked up and found. *)
Theorem X4_bookings_reference_rooms :
  forall (db : Sqlite.Database) (ops : list Sqlite.op),
    roomsExist db -> roomsExist (Sqlite.run db ops).
Proof.
  intros db ops. apply (run_invariant roomsExist). clear db ops.
  intros db o H.
  destruct (exec_cases db o)
    as [-> | [(user & now & body & room & R & _ & _ & _ & _ & _ & _ & ->)
             | (i & booking & _ & _ & ->)]]; [exact H | |];
    intros b Hb; simpl in *.
  - apply in_app_iff in Hb as [Hb|[<-|[]]]; [now apply H|].
    apply find_some in R as [Rin Rid]. apply Z.eqb_eq in Rid.
    exists room. auto.
  - apply in_map_iff in Hb as (b0 & <- & Hb0).
    rewrite cancelledAt_roomId. now apply H.
Qed.

Lemma X4_bookings_reference_rooms_witness :
  roomsExist
    (Sqlite.run Scenario.registered
       [Sqlite.CreateBooking 7 Scenario.clock
          (Scenario.body 2 "2024-06-01" "2024-06-05");
        Sqlite.Cancel 7 Scenario.clock "1"]).
Proof.
  apply (X4_bookings_reference_rooms Scenario.registered).
  intros b [].
Defined.

(** X5.  If every row of the ledger is as the handlers write rows - room,
    dates, name, email and phone filled in, special requests not NULL,
    status confirmed or cancelled - this is still so after any sequence of
    operations. *)
Theorem X5_rows_stay_well_formed :
  forall (db : Sqlite.Database) (ops : list Sqlite.op),
    Forall writtenRow (Sqlite.bookings db) ->
    Forall writtenRow (Sqlite.bookings (Sqlite.run db ops)).
Proof.
  intros db ops.
  apply (run_invariant (fun d => Forall writtenRow (Sqlite.bookings d))).
  clear db ops.
  intros db o H.
  destruct (exec_cases db o)
    as [-> | [(user & now & body & room & _ & F1 & F2 & F3 & F4 & F5 & F6 & ->)
             | (i & booking & _ & _ & ->)]]; [exact H | |]; simpl.
  - apply Forall_app. split; [exact H|]. constructor; [|constructor].
    unfold writtenRow. simpl.
    split; [apply (falsyZ_false _ F1)|].
    repeat (split; [now apply falsyS_valS|]).
    split; [discriminate | now left].
  - apply Forall_map. eapply Forall_impl; [|exact H].
    intros b W. unfold cancelledAt.
    destruct (Sqlite.sqlEq (Sqlite.Booking.id b) (Some i)); [|exact W].
    unfold writtenRow in *. simpl. intuition.
Qed.

Lemma X5_rows_stay_well_formed_witness :
  Forall writtenRow (Sqlite.bookings Scenario.booked).
Proof.
  apply (X5_rows_stay_well_formed Scenario.registered
           [Sqlite.CreateBooking 7 Scenario.clock
              (Scenario.body 1 "2024-06-01" "2024-06-05")]).
  constructor.
Defined.

(** X6.  A booking request or a cancellation that is answered with an
    error has written nothing: the database is the one before the call. *)
Theorem X6_errors_write_nothing :
  forall (db : Sqlite.Database) (user : Z) (now : string)
         (body : Sqlite.Body.t) (idParam : string),
    (isOk (snd (Sqlite.createBooking db user now body)) = true
     \/ fst (Sqlite.createBooking db user now body) = db)
    /\ (isOk (snd (Sqlite.cancel db user now idParam)) = true
        \/ fst (Sqlite.cancel db user now idParam) = db).
Proof.
  intros db user now body idParam. split.
  - destruct (isOk (snd (Sqlite.createBooking db user now body))) eqn:E;
      [now left | right]. now apply createBooking_error_unchanged.
  - destruct (isOk (snd (Sqlite.cancel db user now idParam))) eqn:E;
      [now left | right]. now apply cancel_error_unchanged.
Qed.

Lemma find_map_cancelled (i : Z) (l : list Sqlite.Booking.t)
    (b : Sqlite.Booking.t) :
  find (fun x => Sqlite.Booking.id x =? i) l = Some b ->
  find (fun x => Sqlite.Booking.id x =? i) (map (cancelledAt (Some i)) l)
  = Some (Sqlite.Booking.setStatus "cancelled" b).
Proof.
  induction l as [|a l IH]; simpl; [discriminate|].
  rewrite cancelledAt_id.
  destruct (Sqlite.Booking.id a =? i) eqn:E.
  - intros H. inversion H; subst. unfold cancelledAt. simpl. now rewrite E.
  - exact IH.
Qed.

(** X7.  Once a cancellation has succeeded, every further cancellation of
    the same id is refused and writes nothing: with 400 for the owner, with
    404 for anybody else, at whatever time it is asked. *)
Theorem X7_second_cancel_refused :
  forall (db db' : Sqlite.Database) (user : Z) (now idParam : string),
    Sqlite.cancel db user now idParam = (db', Ok tt) ->
    forall (user' : Z) (now' : string),
      Sqlite.cancel db' user' now' idParam
      = (db', if user' =? user
              then Error 400 "Cannot cancel this booking"
              else Error 404 "Booking not found").
Proof.
  intros db db' user now idParam H user' now'.
  apply cancel_ok_inv in H as (i & booking & Hp & F & U & _ & _ & ->).
  unfold Sqlite.cancel. rewrite Hp. simpl Sqlite.sqlEq. simpl Sqlite.bookings.
  rewrite (find_map_cancelled _ _ _ F). simpl.
  rewrite U, (Z.eqb_sym user user').
  now destruct (user' =? user).
Qed.

Lemma X7_second_cancel_refused_witness :
  Sqlite.cancel (fst (Sqlite.cancel Scenario.booked 7 Scenario.clock "1"))
    7 "2024-05-02T00:00:00.000Z" "1"
  = (fst (Sqlite.cancel Scenario.booked 7 Scenario.clock "1"),
     Error 400 "Cannot cancel this booking").
Proof.
  apply (X7_second_cancel_refused Scenario.booked
           (fst (Sqlite.cancel Scenario.booked 7 Scenario.clock "1"))
           7 Scenario.clock "1" eq_refl 7 "2024-05-02T00:00:00.000Z").
Defined.

(** ** How the operations compose *)

(** X8.  A booking that is created and then cancelled (by its id) leaves
    the room as available as it was: the ledger has gained one cancelled
    row, and every search gives the answer it gave before the booking. *)
Theorem X8_cancel_undoes_create :
  forall (db db1 db2 : Sqlite.Database) (user user' : Z)
         (now now' idParam : string) (body : Sqlite.Body.t)
         (row : Sqlite.Booking.t) (room : Sqlite.Room.t),
    keyed db ->
    Sqlite.createBooking db user now body = (db1, Ok (Some row, room)) ->
    parseInt idParam = Some (Sqlite.Booking.id row) ->
    Sqlite.cancel db1 user' now' idParam = (db2, Ok tt) ->
    Sqlite.bookings db2
    = Sqlite.bookings db ++ [Sqlite.Booking.setStatus "cancelled" row]
    /\ forall q : Sqlite.Query.t, Sqlite.search db2 q = Sqlite.search db q.
Proof.
  intros db db1 db2 user user' now now' idParam body row room K Hc Hp Hx.
  destruct (createBooking_ok_inserts _ _ _ _ _ _ _ K Hc)
    as (Hb & _ & Hrow & _ & _ & Hrooms & _).
  inversion Hrow; subst row. clear Hrow.
  apply cancel_ok_inv in Hx as (i & booking & Hp' & _ & _ & _ & _ & ->).
  rewrite Hp in Hp'. inversion Hp'; subst i. clear Hp'.
  assert (map (cancelledAt (Some (Sqlite.Booking.id (newRow db user now body))))
              (Sqlite.bookings db1)
          = Sqlite.bookings db
            ++ [Sqlite.Booking.setStatus "cancelled" (newRow db user now body)])
    as Hmap.
  { rewrite Hb, map_app. f_equal.
    - destruct K as [_ K]. rewrite <- (map_id (Sqlite.bookings db)) at 2.
      apply map_ext_in. intros b Hin. rewrite Forall_forall in K.
      specialize (K b Hin). unfold cancelledAt. simpl.
      destruct (Sqlite.Booking.id b =? Sqlite.lastBookingId db + 1) eqn:E;
        [apply Z.eqb_eq in E; lia | reflexivity].
    - unfold cancelledAt. simpl. now rewrite Z.eqb_refl. }
  split; [exact Hmap|].
  intros q. unfold Sqlite.search.
  cbn [Sqlite.bookings Sqlite.rooms].
  change (Sqlite.lastBookingId db + 1)
    with (Sqlite.Booking.id (newRow db user now body)).
  rewrite Hmap, Hrooms.
  rewrite filter_app. simpl. now rewrite app_nil_r.
Qed.

Lemma X8_cancel_undoes_create_witness :
  Sqlite.search (fst (Sqlite.cancel Scenario.booked 7 Scenario.clock "1"))
    (Scenario.query "2024-06-03" "2024-06-06" None)
  = Sqlite.search Scenario.registered
      (Scenario.query "2024-06-03" "2024-06-06" None).
Proof.
  refine (proj2 (X8_cancel_undoes_create Scenario.registered Scenario.booked
           (fst (Sqlite.cancel Scenario.booked 7 Scenario.clock "1"))
           7 7 Scenario.clock Scenario.clock "1"
           (Scenario.body 1 "2024-06-01" "2024-06-05")
           (newRow Scenario.registered 7 Scenario.clock
              (Scenario.body 1 "2024-06-01" "2024-06-05"))
           (Sqlite.Room.mk 1 "Standard Room"
              "Cozy room with queen bed, city view, workstation." 79 2
              (Some "https://images.unsplash.com/photo-1560066984-138dadb4c035?q=80&w=1200&auto=format&fit=crop"))
           _ _ _ _) _).
  - split; constructor.
  - reflexivity.
  - reflexivity.
  - reflexivity.
Defined.

(** X9.  Asking for more guests can only take rooms away: the answer of a
    search for the larger party is the answer for the smaller party, in
    the same order, without the rooms that are too small. *)
Theorem X9_search_monotone_in_guests :
  forall (db : Sqlite.Database) (ci co : string) (g1 g2 : option string)
         (n1 n2 : Z) (l1 : list Sqlite.Room.t),
    ci <> ""%string -> co <> ""%string ->
    parseInt (orS g1 "1") = Some n1 ->
    parseInt (orS g2 "1") = Some n2 ->
    n1 <= n2 ->
    Sqlite.search db (Sqlite.Query.mk (Some ci) (Some co) g1) = Ok l1 ->
    Sqlite.search db (Sqlite.Query.mk (Some ci) (Some co) g2)
    = Ok (filter (fun r => n2 <=? Sqlite.Room.capacity r) l1).
Proof.
  intros db ci co g1 g2 n1 n2 l1 Hi Ho H1 H2 Hle Hs.
  rewrite (search_supplied db _ ci co) in Hs by (split; auto).
  rewrite (search_supplied db _ ci co) by (split; auto).
  simpl in *. rewrite H1 in Hs. rewrite H2. inversion Hs; subst l1.
  rewrite filter_filter_andb. f_equal. apply filter_ext. intros r.
  unfold searchKeeps, Sqlite.sqlGe.
  destruct (n2 <=? Sqlite.Room.capacity r) eqn:E2; simpl.
  - apply Z.leb_le in E2.
    assert ((n1 <=? Sqlite.Room.capacity r) = true) as ->
      by (apply Z.leb_le; lia).
    simpl. now rewrite andb_true_r.
  - now rewrite andb_false_r.
Qed.

Lemma X9_search_monotone_in_guests_witness :
  Sqlite.search Sqlite.freshDb
    (Sqlite.Query.mk (Some "2024-06-01") (Some "2024-06-05") (Some "3"))
  = Ok (filter (fun r => 3 <=? Sqlite.Room.capacity r) Sqlite.seedRooms).
Proof.
  apply (X9_search_monotone_in_guests Sqlite.freshDb
           "2024-06-01" "2024-06-05" None (Some "3") 1 3 Sqlite.seedRooms).
  - discriminate.
  - discriminate.
  - reflexivity.
  - reflexivity.
  - lia.
  - reflexivity.
Defined.

Lemma roomFree_same_id (db : Sqlite.Database) (ci co : string)
    (r r' : Sqlite.Room.t) :
  Sqlite.Room.id r = Sqlite.Room.id r' ->
  roomFree db ci co r -> roomFree db ci co r'.
Proof. unfold roomFree. intros E H b Hb Hs Hr. apply H; congruence. Qed.

(** X10.  Search and booking agree on ranges that run forward: when a
    search for a range whose check-out is not before its check-in lists a
    room, a booking request of a registered user (one with a row in
    [users], as the foreign key of the INSERT demands) for that room and
    that range, with name, email and phone given, is accepted on the same
    ledger. *)
Theorem X10_listed_room_can_be_booked :
  forall (db : Sqlite.Database) (ci co : string) (guests : option string)
         (rooms : list Sqlite.Room.t) (R : Sqlite.Room.t)
         (user : Z) (now : string) (fullName email phone : string)
         (specialRequests : option string),
    ci <> ""%string -> co <> ""%string -> lex_le ci co ->
    Sqlite.search db (Sqlite.Query.mk (Some ci) (Some co) guests) = Ok rooms ->
    In R rooms ->
    Sqlite.Room.id R <> 0 ->
    (exists u, In u (Sqlite.users db) /\ Sqlite.User.id u = user) ->
    fullName <> ""%string -> email <> ""%string -> phone <> ""%string ->
    isOk (snd (Sqlite.createBooking db user now
                 (Sqlite.Body.mk (Some (Sqlite.Room.id R)) (Some ci) (Some co)
                    (Some fullName) (Some email) (Some phone)
                    specialRequests))) = true.
Proof.
  intros db ci co guests rooms R user now fullName email phone sr
         Hi Ho Fwd Hs HR Hid Hu Hn He Hph.
  rewrite (search_supplied db _ ci co) in Hs by (split; auto).
  inversion Hs; subst rooms. clear Hs.
  apply filter_In in HR as [HR Hk].
  apply searchKeeps_spec in Hk as [_ Hfree].
  destruct (find (fun r => Sqlite.Room.id r =? Sqlite.Room.id R)
                 (Sqlite.rooms db)) as [room|] eqn:F.
  - assert (forall s, s <> ""%string -> falsyS (Some s) = false) as Fs
      by (intros s Hne; apply (supplied_falsyS _ s); split; auto).
    assert (forall s, s <> ""%string -> valS (Some s) = s) as Vs
      by (intros s Hne; apply supplied_valS; split; auto).
    apply (createBooking_accepts_forward db user now _ room);
      cbn [Sqlite.Body.roomId Sqlite.Body.checkIn Sqlite.Body.checkOut
           Sqlite.Body.fullName Sqlite.Body.email Sqlite.Body.phone valZ];
      rewrite ?Vs by assumption; try (now apply Fs).
    + exact Hu.
    + simpl. now apply Z.eqb_neq.
    + exact F.
    + exact Fwd.
    + apply find_some in F as [_ E]. apply Z.eqb_eq in E.
      apply (roomFree_same_id db ci co R room); auto.
  - exfalso. apply (find_none _ _ F) in HR. rewrite Z.eqb_refl in HR.
    discriminate.
Qed.

Lemma X10_listed_room_can_be_booked_witness :
  isOk (snd (Sqlite.createBooking Scenario.booked 9 Scenario.clock
               (Sqlite.Body.mk (Some 2) (Some "2024-06-03")
                  (Some "2024-06-06") (Some "Ben Silva")
                  (Some "ben@example.com") (Some "0112345678") None)))
  = true.
Proof.
  apply (X10_listed_room_can_be_booked Scenario.booked
           "2024-06-03" "2024-06-06" (Some "2")
           (filter (fun r => 2 <=? Sqlite.Room.id r) Sqlite.seedRooms)
           (Sqlite.Room.mk 2 "Deluxe Room"
              "Spacious room with king bed, balcony, partial sea view." 129 3
              (Some "https://images.unsplash.com/photo-1584132967334-10e028bd69f7?q=80&w=1200&auto=format&fit=crop"))
           9 Scenario.clock "Ben Silva" "ben@example.com" "0112345678" None);
    try discriminate.
  - apply leb_lex_le. reflexivity.
  - reflexivity.
  - left. reflexivity.
  - eexists. split; [right; left; reflexivity | reflexivity].
Defined.

(** ** Numbers that do not parse, and text after the number *)

Lemma filter_none {A} (f : A -> bool) (l : list A) :
  (forall x, f x = false) -> filter f l = [].
Proof.
  intros H. induction l as [|x l IH]; simpl; [reflexivity|].
  now rewrite H.
Qed.

(** X11.  When the id of the path is not a number, the cancellation is
    answered 404 "Booking not found" and writes nothing.  When [guests] is
    given and is not a number, a search with both dates is answered with a
    success and no room at all. *)
Theorem X11_unparsable_numbers :
  forall (db : Sqlite.Database) (user : Z) (now idParam : string)
         (q : Sqlite.Query.t) (ci co : string),
    (parseInt idParam = None ->
     Sqlite.cancel db user now idParam = (db, Error 404 "Booking not found"))
    /\ (supplied (Sqlite.Query.checkIn q) ci ->
        supplied (Sqlite.Query.checkOut q) co ->
        parseInt (orS (Sqlite.Query.guests q) "1") = None ->
        Sqlite.search db q = Ok []).
Proof.
  intros db user now idParam q ci co. split.
  - intros H. unfold Sqlite.cancel. rewrite H.
    destruct (find _ (Sqlite.bookings db)) as [b|] eqn:F; [|reflexivity].
    apply find_some in F as [_ F]. discriminate.
  - intros Hi Ho H. rewrite (search_supplied db q ci co Hi Ho), H.
    f_equal. apply filter_none. intros r. reflexivity.
Qed.

Lemma X11_unparsable_numbers_witness :
  Sqlite.cancel Scenario.booked 7 Scenario.clock "first"
  = (Scenario.booked, Error 404 "Booking not found")
  /\ Sqlite.search Scenario.booked
       (Scenario.query "2024-07-01" "2024-07-03" (Some "two")) = Ok [].
Proof.
  split.
  - apply (proj1 (X11_unparsable_numbers Scenario.booked 7 Scenario.clock
                    "first" (Scenario.query "2024-07-01" "2024-07-03" None)
                    "" "")).
    reflexivity.
  - apply (proj2 (X11_unparsable_numbers Scenario.booked 7 Scenario.clock
                    "first"
                    (Scenario.query "2024-07-01" "2024-07-03" (Some "two"))
                    "2024-07-01" "2024-07-03")).
    + split; [reflexivity | discriminate].
    + split; [reflexivity | discriminate].
    + reflexivity.
Defined.

Lemma readDigits_app (s : string) (acc : Z) (seen : bool) (c : ascii)
    (t : string) (i : Z) :
  digitOf c = None ->
  readDigits acc seen s = Some i ->
  readDigits acc seen (s ++ String c t) = Some i.
Proof.
  intros Hc. revert acc seen. induction s as [|d s IH]; intros acc seen H.
  - simpl in *. now rewrite Hc.
  - simpl in *. destruct (digitOf d); [now apply IH | exact H].
Qed.

Lemma trimStart_app (s t : string) :
  trimStart s <> ""%string -> trimStart (s ++ t) = (trimStart s ++ t)%string.
Proof.
  induction s as [|a s IH]; simpl.
  - intros H. now contradiction H.
  - destruct (isWhiteSpace a); [exact IH | reflexivity].
Qed.

(** The three shapes of a number: with a minus sign, with a plus sign,
    without a sign. *)
Lemma parseInt_cases (s : string) :
  (exists r, trimStart s = String "-" r
             /\ parseInt s = option_map Z.opp (readDigits 0 false r))
  \/ (exists r, trimStart s = String "+" r
                /\ parseInt s = readDigits 0 false r)
  \/ ((forall r, trimStart s <> String "-" r)
      /\ (forall r, trimStart s <> String "+" r)
      /\ parseInt s = readDigits 0 false (trimStart s)).
Proof.
  unfold parseInt. destruct (trimStart s) as [|a r].
  - right. right. repeat split; discriminate.
  - destruct a as [[] [] [] [] [] [] [] []];
      first [ left; exists r; split; reflexivity
            | right; left; exists r; split; reflexivity
            | right; right; repeat split; discriminate ].
Qed.

(** Text after the number is not read: a non-digit and whatever follows it
    can be added to a string that parses without changing the result. *)
Lemma parseInt_app (s : string) (c : ascii) (t : string) (i : Z) :
  digitOf c = None ->
  parseInt s = Some i ->
  parseInt (s ++ String c t) = Some i.
Proof.
  intros Hc H.
  assert (trimStart s <> ""%string) as Hne
    by (intros E; unfold parseInt in H; rewrite E in H; discriminate).
  pose proof (trimStart_app s (String c t) Hne) as T.
  destruct (parseInt_cases (s ++ String c t))
    as [(r' & Tr' & P') | [(r' & Tr' & P') | (N1' & N2' & P')]];
    rewrite P'; clear P'.
  - rewrite T in Tr'. unfold parseInt in H.
    destruct (trimStart s) as [|a r0]; [now contradiction Hne|].
    simpl in Tr'. inversion Tr'; subst a r'. simpl in H.
    destruct (readDigits 0 false r0) as [n|] eqn:E; [|discriminate].
    now rewrite (readDigits_app _ _ _ _ _ _ Hc E).
  - rewrite T in Tr'. unfold parseInt in H.
    destruct (trimStart s) as [|a r0]; [now contradiction Hne|].
    simpl in Tr'. inversion Tr'; subst a r'. simpl in H.
    now apply readDigits_app.
  - rewrite T in N1', N2' |- *.
    destruct (parseInt_cases s)
      as [(r & Tr & P) | [(r & Tr & P) | (N1 & N2 & P)]].
    + exfalso. apply (N1' (r ++ String c t)%string). now rewrite Tr.
    + exfalso. apply (N2' (r ++ String c t)%string). now rewrite Tr.
    + rewrite P in H. now apply readDigits_app.
Qed.

(** X12.  The cancellation route reads the id of the path up to the first
    character that cannot belong to the number: whatever follows a parsable
    id, starting with a non-digit, changes neither the answer nor the
    effect. *)
Theorem X12_cancel_ignores_trailing_text :
  forall (db : Sqlite.Database) (user : Z) (now idParam : string)
         (c : ascii) (rest : string),
    digitOf c = None ->
    parseInt idParam <> None ->
    Sqlite.cancel db user now (idParam ++ String c rest)
    = Sqlite.cancel db user now idParam.
Proof.
  intros db user now idParam c rest Hc Hp.
  destruct (parseInt idParam) as [i|] eqn:E; [|now contradiction Hp].
  unfold Sqlite.cancel. now rewrite (parseInt_app _ _ _ _ Hc E), E.
Qed.

Lemma X12_cancel_ignores_trailing_text_witness :
  Sqlite.cancel Scenario.booked 7 Scenario.clock "1abc"
  = Sqlite.cancel Scenario.booked 7 Scenario.clock "1".
Proof.
  apply (X12_cancel_ignores_trailing_text Scenario.booked 7 Scenario.clock
           "1" "a"%char "bc").
  - reflexivity.
  - discriminate.
Defined.

(** ** The answers of a booking request, as the code gives them *)

Lemma missingField_chain (body : Sqlite.Body.t) :
  falsyZ (Sqlite.Body.roomId body) || falsyS (Sqlite.Body.checkIn body)
  || falsyS (Sqlite.Body.checkOut body) || falsyS (Sqlite.Body.fullName body)
  || falsyS (Sqlite.Body.email body) || falsyS (Sqlite.Body.phone body) = true
  <-> missingField body.
Proof. unfold missingField. rewrite !orb_true_iff. tauto. Qed.

Lemma filter_nonempty {A} (f : A -> bool) (l : list A) :
  (Z.of_nat (List.length (filter f l)) >? 0) = true
  <-> exists x, In x l /\ f x = true.
Proof.
  rewrite Z.gtb_ltb, Z.ltb_lt. split.
  - destruct (filter f l) as [|x r] eqn:E; simpl; [lia|].
    intros _. exists x. apply filter_In. rewrite E. now left.
  - intros [x Hx]. apply filter_In in Hx.
    destruct (filter f l); [contradiction | simpl List.length; lia].
Qed.

(** X13.  The three refusals of a booking request, in their order of
    precedence.  It is answered 400 exactly when a required field is
    missing; 404 exactly when no field is missing and no room has the
    requested id; 409 exactly when no field is missing, the room exists,
    and some confirmed booking of that room begins before the requested
    check-in and ends after the requested check-out. *)
Theorem X13_booking_refusals :
  forall (db : Sqlite.Database) (user : Z) (now : string)
         (body : Sqlite.Body.t),
    let res := snd (Sqlite.createBooking db user now body) in
    let roomId := valZ (Sqlite.Body.roomId body) in
    let roomKnown := exists r, In r (Sqlite.rooms db)
                               /\ Sqlite.Room.id r = roomId in
    (isValidation res = true <-> missingField body)
    /\ (isNotFound res = true <-> ~ missingField body /\ ~ roomKnown)
    /\ (isConflict res = true <->
        ~ missingField body /\ roomKnown
        /\ exists b, In b (Sqlite.bookings db)
             /\ Sqlite.Booking.roomId b = roomId
             /\ Sqlite.Booking.status b = "confirmed"
             /\ ~ lex_le (valS (Sqlite.Body.checkIn body))
                         (Sqlite.Booking.checkIn b)
             /\ ~ lex_le (Sqlite.Booking.checkOut b)
                         (valS (Sqlite.Body.checkOut body))).
Proof.
  intros db user now body res roomId roomKnown.
  unfold res, Sqlite.createBooking.
  destruct (falsyZ _ || _ || _ || _ || _ || _) eqn:M.
  - apply missingField_chain in M. simpl.
    split; [tauto|]. split; (split; [discriminate | tauto]).
  - assert (~ missingField body) as NM
      by (rewrite <- missingField_chain, M; discriminate).
    fold roomId.
    destruct (find _ (Sqlite.rooms db)) as [room|] eqn:R.
    + assert roomKnown as RK.
      { apply find_some in R as [Rin Rid]. apply Z.eqb_eq in Rid.
        now exists room. }
      destruct (_ >? 0) eqn:C.
      * apply filter_nonempty in C as (b & Hb & Cb).
        apply conflictRow_inside in Cb. simpl.
        split; [split; [discriminate | tauto]|].
        split; [split; [discriminate | tauto]|].
        split; [intros _|reflexivity].
        split; [exact NM|]. split; [exact RK|]. now exists b.
      * assert (~ exists b, In b (Sqlite.bookings db)
                  /\ Sqlite.Booking.roomId b = roomId
                  /\ Sqlite.Booking.status b = "confirmed"
                  /\ ~ lex_le (valS (Sqlite.Body.checkIn body))
                              (Sqlite.Booking.checkIn b)
                  /\ ~ lex_le (Sqlite.Booking.checkOut b)
                              (valS (Sqlite.Body.checkOut body))) as NC.
        { intros (b & Hb & Cb). apply conflictRow_inside in Cb.
          assert ((Z.of_nat (List.length
                     (filter (Sqlite.conflictRow roomId
                                (valS (Sqlite.Body.checkIn body))
                                (valS (Sqlite.Body.checkOut body)))
                             (Sqlite.bookings db))) >? 0) = true) as C'
            by (apply filter_nonempty; now exists b).
          unfold roomId in *. rewrite C in C'. discriminate. }
        destruct (existsb _ (Sqlite.users db)); simpl;
          (split; [split; [discriminate | tauto]|];
           split; [split; [discriminate | tauto]|];
           split; [discriminate|];
           intros (_ & _ & Hex); now apply NC in Hex).
    + simpl.
      assert (~ roomKnown) as NK.
      { intros (r & Hr & Hid). apply (find_none _ _ R) in Hr.
        apply Z.eqb_neq in Hr. contradiction. }
      split; [split; [discriminate | tauto]|].
      split; [split; [auto | reflexivity]|].
      split; [discriminate | tauto].
Qed.

(** ** The [auth] middleware *)

Lemma prefix_app (p s : string) :
  String.prefix p s = true <-> exists t, s = (p ++ t)%string.
Proof.
  revert s. induction p as [|a p IH]; intros s.
  - split; [intros _; now exists s | now destruct s].
  - destruct s as [|b s]; simpl.
    + split; [discriminate | intros [t H]; discriminate].
    + destruct (ascii_dec a b) as [->|N].
      * rewrite IH. split; intros [t H]; exists t; congruence.
      * split; [discriminate | intros [t H]; congruence].
Qed.

Lemma slice_app (p t : string) :
  Auth.slice (String.length p) (p ++ t) = t.
Proof. induction p as [|a p IH]; simpl; [now destruct t | exact IH]. Qed.

Lemma orS_empty (h : string) : orS (Some h) "" = h.
Proof.
  unfold orS. destruct (String.eqb h "") eqn:E; [|reflexivity].
  apply String.eqb_eq in E. now subst.
Qed.

(** What [auth] does, by the shape of the header. *)
Lemma auth_shape {P} (verify : string -> option P)
    (authorization : option string) :
  (exists token,
     authorization = Some ("Bearer " ++ token)%string
     /\ Auth.auth verify authorization
        = if String.eqb token ""
          then Auth.Reject 401 "Missing token"
          else match verify token with
               | Some payload => Auth.Next payload
               | None => Auth.Reject 401 "Invalid token"
               end)
  \/ ((forall token, authorization <> Some ("Bearer " ++ token)%string)
      /\ Auth.auth verify authorization = Auth.Reject 401 "Missing token").
Proof.
  unfold Auth.auth. destruct authorization as [h|].
  - rewrite orS_empty.
    destruct (String.prefix "Bearer " h) eqn:E.
    + apply prefix_app in E as [token ->]. left. exists token.
      split; [reflexivity|].
      change 7%nat with (String.length "Bearer ").
      rewrite slice_app. unfold falsyS, valS.
      destruct (String.eqb token "") eqn:T; [reflexivity|].
      unfold orS. now rewrite T.
    + right. split; [|reflexivity]. intros token H.
      assert (String.prefix "Bearer " h = true) as E'
        by (apply prefix_app; exists token; congruence).
      rewrite E' in E. discriminate.
  - right. split; [discriminate | reflexivity].
Qed.

(** X14.  The middleware lets a request through exactly when its
    [Authorization] header is the text "Bearer ", one space included and in
    this very spelling, followed by a non-empty token that [jwt.verify]
    accepts, and the user it hands on is the verified payload.  A header
    that is absent, has another shape or carries no token is answered 401
    "Missing token"; a token that does not verify, 401 "Invalid token". *)
Theorem X14_auth_accepts :
  forall (P : Type) (verify : string -> option P)
         (authorization : option string),
    (forall p, Auth.auth verify authorization = Auth.Next p <->
       exists token,
         authorization = Some ("Bearer " ++ token)%string
         /\ token <> ""%string /\ verify token = Some p)
    /\ (Auth.auth verify authorization = Auth.Reject 401 "Missing token" <->
        ~ exists token,
            authorization = Some ("Bearer " ++ token)%string
            /\ token <> ""%string)
    /\ (Auth.auth verify authorization = Auth.Reject 401 "Invalid token" <->
        exists token,
          authorization = Some ("Bearer " ++ token)%string
          /\ token <> ""%string /\ verify token = None).
Proof.
  intros P verify authorization.
  destruct (auth_shape verify authorization) as [(token & -> & E) | [N E]];
    rewrite E; clear E.
  - assert (forall t, Some ("Bearer " ++ token)%string
                      = Some ("Bearer " ++ t)%string -> t = token) as Inj
      by (intros t H; inversion H; reflexivity).
    destruct (String.eqb token "") eqn:T.
    + apply String.eqb_eq in T. subst token.
      split; [intros p; split; [discriminate|]|split; split].
      * intros (t & H & Ht & _). apply Inj in H. contradiction.
      * intros _ (t & H & Ht). apply Inj in H. contradiction.
      * reflexivity.
      * discriminate.
      * intros (t & H & Ht & _). apply Inj in H. contradiction.
    + apply String.eqb_neq in T.
      destruct (verify token) as [payload|] eqn:V.
      * split; [intros p; split|split; split].
        -- intros H. inversion H; subst. now exists token.
        -- intros (t & H & _ & Vt). apply Inj in H. subst t.
           rewrite V in Vt. now inversion Vt.
        -- discriminate.
        -- intros H. exfalso. apply H. now exists token.
        -- discriminate.
        -- intros (t & H & _ & Vt). apply Inj in H. subst t.
           rewrite V in Vt. discriminate.
      * split; [intros p; split|split; split].
        -- discriminate.
        -- intros (t & H & _ & Vt). apply Inj in H. subst t.
           rewrite V in Vt. discriminate.
        -- discriminate.
        -- intros H. exfalso. apply H. now exists token.
        -- intros _. now exists token.
        -- reflexivity.
  - split; [intros p; split|split; split].
    + discriminate.
    + intros (t & H & _). now apply N in H.
    + intros _ (t & H & _). now apply N in H.
    + reflexivity.
    + discriminate.
    + intros (t & H & _). now apply N in H.
Qed.

(** X15.  Without a token that verifies, the two guarded routes answer 401
    and write nothing: neither the booking handler nor the cancellation
    handler is reached. *)
Theorem X15_no_token_no_write :
  forall (verify : string -> option Routes.Claims) (db : Sqlite.Database)
         (authorization : option string) (now : string)
         (body : Sqlite.Body.t) (idParam : string),
    (forall token, authorization = Some ("Bearer " ++ token)%string ->
                   verify token = None) ->
    (exists msg, Routes.postBookings verify db authorization now body
                 = (db, Error 401 msg))
    /\ (exists msg, Routes.patchCancel verify db authorization now idParam
                    = (db, Error 401 msg)).
Proof.
  intros verify db authorization now body idParam H.
  unfold Routes.postBookings, Routes.patchCancel.
  destruct (auth_shape verify authorization) as [(token & A & E) | [N E]];
    rewrite E; clear E.
  - rewrite (H token A). destruct (String.eqb token ""); split; eexists;
      reflexivity.
  - split; eexists; reflexivity.
Qed.

Lemma X15_no_token_no_write_witness :
  (exists msg,
     Routes.postBookings (fun _ => None) Scenario.booked
       (Some "Bearer eyJhbGciOiJIUzI1NiJ9.e30.forged") Scenario.clock
       (Scenario.body 2 "2024-07-01" "2024-07-03")
     = (Scenario.booked, Error 401 msg))
  /\ (exists msg,
        Routes.patchCancel (fun _ => None) Scenario.booked
          (Some "Bearer eyJhbGciOiJIUzI1NiJ9.e30.forged") Scenario.clock "1"
        = (Scenario.booked, Error 401 msg)).
Proof.
  apply (X15_no_token_no_write (fun _ => None) Scenario.booked
           (Some "Bearer eyJhbGciOiJIUzI1NiJ9.e30.forged") Scenario.clock
           (Scenario.body 2 "2024-07-01" "2024-07-03") "1").
  intros token _. reflexivity.
Defined.

(** ** Registration and login *)

(** The two ways [Accounts.register] can end. *)
Lemma register_cases (hashSync : string -> string)
    (issueToken : Accounts.View.t -> string) (db : Sqlite.Database)
    (now : string) (form : Accounts.Form.t) :
  (fst (Accounts.register hashSync issueToken db now form) = db
   /\ isOk (snd (Accounts.register hashSync issueToken db now form)) = false)
  \/ (falsyS (Accounts.Form.name form) = false
      /\ falsyS (Accounts.Form.email form) = false
      /\ falsyS (Accounts.Form.password form) = false
      /\ find (fun u => String.eqb (Sqlite.User.email u)
                          (valS (Accounts.Form.email form)))
              (Sqlite.users db) = None
      /\ Accounts.register hashSync issueToken db now form
         = (Sqlite.mkDb
              (Sqlite.users db
               ++ [Sqlite.User.mk (Accounts.nextUserId (Sqlite.users db))
                     (valS (Accounts.Form.name form))
                     (valS (Accounts.Form.email form))
                     (hashSync (valS (Accounts.Form.password form))) now])
              (Sqlite.rooms db) (Sqlite.bookings db)
              (Sqlite.lastBookingId db),
            Ok (Accounts.View.mk (Accounts.nextUserId (Sqlite.users db))
                  (valS (Accounts.Form.name form))
                  (valS (Accounts.Form.email form)),
                issueToken
                  (Accounts.View.mk (Accounts.nextUserId (Sqlite.users db))
                     (valS (Accounts.Form.name form))
                     (valS (Accounts.Form.email form)))))).
Proof.
  unfold Accounts.register.
  destruct (falsyS (Accounts.Form.name form)); [left; auto|].
  destruct (falsyS (Accounts.Form.email form)); [left; auto|].
  destruct (falsyS (Accounts.Form.password form)); [left; auto|].
  simpl.
  destruct (find _ (Sqlite.users db)) as [existing|] eqn:F; [left; auto|].
  right. auto.
Qed.

Lemma fold_max_ge (l : list Z) (x : Z) :
  In x l -> x <= fold_right Z.max 0 l.
Proof.
  induction l as [|a l IH]; simpl; [contradiction|].
  intros [->|H]; [lia | specialize (IH H); lia].
Qed.

Lemma find_snoc_none {A} (f : A -> bool) (l : list A) (x : A) :
  find f l = None -> find f (l ++ [x]) = if f x then Some x else None.
Proof.
  induction l as [|a l IH]; simpl; [reflexivity|].
  destruct (f a); [discriminate | exact IH].
Qed.

(** X16.  Registration keeps the users apart: if no two users share an
    email or an id, this is still so after a registration, whatever its
    outcome; rooms and bookings are not touched. *)
Theorem X16_register_keeps_users_unique :
  forall (hashSync : string -> string)
         (issueToken : Accounts.View.t -> string) (db : Sqlite.Database)
         (now : string) (form : Accounts.Form.t),
    NoDup (map Sqlite.User.email (Sqlite.users db)) ->
    NoDup (map Sqlite.User.id (Sqlite.users db)) ->
    let db' := fst (Accounts.register hashSync issueToken db now form) in
    NoDup (map Sqlite.User.email (Sqlite.users db'))
    /\ NoDup (map Sqlite.User.id (Sqlite.users db'))
    /\ Sqlite.rooms db' = Sqlite.rooms db
    /\ Sqlite.bookings db' = Sqlite.bookings db
    /\ Sqlite.lastBookingId db' = Sqlite.lastBookingId db.
Proof.
  intros hashSync issueToken db now form Ne Ni db'. unfold db'.
  destruct (register_cases hashSync issueToken db now form)
    as [[E _] | (_ & _ & _ & F & E)]; rewrite E.
  - auto.
  - simpl. rewrite !map_app. simpl. repeat split; auto.
    + apply NoDup_app; [exact Ne | repeat constructor; intros [] |].
      intros e He [<-|[]]. apply in_map_iff in He as (u & Hu & Hin).
      apply (find_none _ _ F) in Hin. rewrite Hu in Hin.
      rewrite String.eqb_refl in Hin. discriminate.
    + apply NoDup_app; [exact Ni | repeat constructor; intros [] |].
      intros i Hi [<-|[]]. apply fold_max_ge in Hi.
      unfold Accounts.nextUserId in Hi. lia.
Qed.

Lemma X16_register_keeps_users_unique_witness :
  NoDup (map Sqlite.User.email
           (Sqlite.users
              (fst (Accounts.register (fun p => ("$2a$10$" ++ p)%string)
                      (fun v => Accounts.View.email v) Sqlite.freshDb
                      Scenario.clock
                      (Accounts.Form.mk (Some "Ada") (Some "ada@example.com")
                         (Some "correct horse")))))).
Proof.
  apply (X16_register_keeps_users_unique
           (fun p => ("$2a$10$" ++ p)%string)
           (fun v => Accounts.View.email v) Sqlite.freshDb Scenario.clock
           (Accounts.Form.mk (Some "Ada") (Some "ada@example.com")
              (Some "correct horse"))); constructor.
Defined.

(** X17.  Register, then log in.  When [compareSync] accepts a password
    against the hash that [hashSync] made of it, a user who has just been
    registered can log in with the same email and password, and the login
    answers with the same user - id, name and email - as the registration
    did. *)
Theorem X17_register_then_login :
  forall (hashSync : string -> string)
         (compareSync : string -> string -> bool)
         (issueToken : Accounts.View.t -> string) (db db' : Sqlite.Database)
         (now : string) (form : Accounts.Form.t) (user : Accounts.View.t)
         (token : string),
    compareSync (valS (Accounts.Form.password form))
                (hashSync (valS (Accounts.Form.password form))) = true ->
    Accounts.register hashSync issueToken db now form
    = (db', Ok (user, token)) ->
    Accounts.login compareSync issueToken db' form
    = Ok (user, issueToken user).
Proof.
  intros hashSync compareSync issueToken db db' now form user token Hc Hr.
  destruct (register_cases hashSync issueToken db now form)
    as [[_ E] | (_ & Fe & Fp & F & E)].
  - rewrite Hr in E. discriminate.
  - rewrite Hr in E. inversion E; subst. clear E.
    unfold Accounts.login. rewrite Fe, Fp.
    remember (valS (Accounts.Form.password form)) as pw.
    remember (valS (Accounts.Form.email form)) as em.
    remember (valS (Accounts.Form.name form)) as nm.
    simpl. rewrite (find_snoc_none _ _ _ F). simpl.
    rewrite String.eqb_refl. simpl. rewrite Hc. reflexivity.
Qed.

Lemma X17_register_then_login_witness :
  Accounts.login (fun p h => String.eqb h ("$2a$10$" ++ p))
    (fun v => Accounts.View.email v)
    (fst (Accounts.register (fun p => ("$2a$10$" ++ p)%string)
            (fun v => Accounts.View.email v) Sqlite.freshDb Scenario.clock
            (Accounts.Form.mk (Some "Ada") (Some "ada@example.com")
               (Some "correct horse"))))
    (Accounts.Form.mk (Some "Ada") (Some "ada@example.com")
       (Some "correct horse"))
  = Ok (Accounts.View.mk 1 "Ada" "ada@example.com", "ada@example.com"%string).
Proof.
  apply (X17_register_then_login (fun p => ("$2a$10$" ++ p)%string)
           (fun p h => String.eqb h ("$2a$10$" ++ p))
           (fun v => Accounts.View.email v) Sqlite.freshDb _ Scenario.clock
           (Accounts.Form.mk (Some "Ada") (Some "ada@example.com")
              (Some "correct horse"))
           (Accounts.View.mk 1 "Ada" "ada@example.com") "ada@example.com").
  - reflexivity.
  - reflexivity.
Defined.

(** X18.  An email can be registered once.  After a registration has
    succeeded, every further registration with the same email - whatever
    the name and the password - is answered 409 and writes nothing. *)
Theorem X18_email_registered_once :
  forall (hashSync hashSync' : string -> string)
         (issueToken issueToken' : Accounts.View.t -> string)
         (db db' : Sqlite.Database) (now now' : string)
         (form form' : Accounts.Form.t) (user : Accounts.View.t)
         (token : string),
    Accounts.register hashSync issueToken db now form
    = (db', Ok (user, token)) ->
    Accounts.Form.email form' = Accounts.Form.email form ->
    falsyS (Accounts.Form.name form') = false ->
    falsyS (Accounts.Form.password form') = false ->
    Accounts.register hashSync' issueToken' db' now' form'
    = (db', Error 409 "Email already registered").
Proof.
  intros hashSync hashSync' issueToken issueToken' db db' now now'
         form form' user token Hr He Hn Hp.
  destruct (register_cases hashSync issueToken db now form)
    as [[_ E] | (_ & Fe & _ & F & E)].
  - rewrite Hr in E. discriminate.
  - rewrite Hr in E. inversion E; subst. clear E.
    unfold Accounts.register. rewrite Hn, Hp, He, Fe.
    remember (valS (Accounts.Form.email form)) as em.
    simpl. rewrite (find_snoc_none _ _ _ F). simpl.
    now rewrite String.eqb_refl.
Qed.

Lemma X18_email_registered_once_witness :
  Accounts.register (fun p => ("$2a$10$" ++ p)%string)
    (fun v => Accounts.View.email v)
    (fst (Accounts.register (fun p => ("$2a$10$" ++ p)%string)
            (fun v => Accounts.View.email v) Sqlite.freshDb Scenario.clock
            (Accounts.Form.mk (Some "Ada") (Some "ada@example.com")
               (Some "correct horse"))))
    "2024-05-02T08:00:00.000Z"
    (Accounts.Form.mk (Some "Eve") (Some "ada@example.com") (Some "guess"))
  = (fst (Accounts.register (fun p => ("$2a$10$" ++ p)%string)
            (fun v => Accounts.View.email v) Sqlite.freshDb Scenario.clock
            (Accounts.Form.mk (Some "Ada") (Some "ada@example.com")
               (Some "correct horse"))),
     Error 409 "Email already registered").
Proof.
  apply (X18_email_registered_once (fun p => ("$2a$10$" ++ p)%string)
           (fun p => ("$2a$10$" ++ p)%string)
           (fun v => Accounts.View.email v) (fun v => Accounts.View.email v)
           Sqlite.freshDb _ Scenario.clock "2024-05-02T08:00:00.000Z"
           (Accounts.Form.mk (Some "Ada") (Some "ada@example.com")
              (Some "correct horse"))
           (Accounts.Form.mk (Some "Eve") (Some "ada@example.com")
              (Some "guess"))
           (Accounts.View.mk 1 "Ada" "ada@example.com") "ada@example.com");
    reflexivity.
Defined.

(** ** The mongoose booking handler under the event loop *)

(** One step of a task leaves the rooms alone and can only add a confirmed
    booking at the end of the ledger. *)
Lemma step_frame (db : Mongo.Database) (t : Mongo.task) :
  Mongo.rooms (fst (Mongo.step db t)) = Mongo.rooms db
  /\ exists added,
       Mongo.bookings (fst (Mongo.step db t)) = Mongo.bookings db ++ added
       /\ Forall (fun b => Mongo.Booking.status b = "confirmed") added.
Proof.
  destruct t as [req | req room | req room | res]; simpl.
  - destruct (find _ (Mongo.rooms db)); simpl;
      (split; [reflexivity | exists []; now rewrite app_nil_r]).
  - destruct (find _ (Mongo.bookings db)); simpl;
      (split; [reflexivity | exists []; now rewrite app_nil_r]).
  - split; [reflexivity|]. eexists. split; [reflexivity|].
    repeat constructor.
  - split; [reflexivity | exists []; now rewrite app_nil_r].
Qed.

Lemma stepAt_frame (i : nat) (db : Mongo.Database) (ts : list Mongo.task) :
  Mongo.rooms (fst (Mongo.stepAt i db ts)) = Mongo.rooms db
  /\ List.length (snd (Mongo.stepAt i db ts)) = List.length ts
  /\ exists added,
       Mongo.bookings (fst (Mongo.stepAt i db ts))
       = Mongo.bookings db ++ added
       /\ Forall (fun b => Mongo.Booking.status b = "confirmed") added.
Proof.
  revert i. induction ts as [|t ts IH]; intros i.
  - destruct i; simpl; (split; [reflexivity|]; split; [reflexivity|];
      exists []; now rewrite app_nil_r).
  - destruct i as [|i]; simpl.
    + destruct (Mongo.step db t) as [db' t'] eqn:E. simpl.
      pose proof (step_frame db t) as [Hr Ha]. rewrite E in Hr, Ha.
      auto.
    + destruct (Mongo.stepAt i db ts) as [db' ts'] eqn:E. simpl.
      specialize (IH i). rewrite E in IH. simpl in IH.
      destruct IH as (Hr & Hl & Ha). auto.
Qed.

(** X20.  Whatever the order in which the event loop advances the booking
    requests in flight, the ledger only grows: the rooms are the same, the
    bookings that were there are still there, unchanged and in place, and
    what has been added after them is confirmed bookings.  No request gets
    lost on the way. *)
Theorem X20_ledger_only_grows :
  forall (order : list nat) (db : Mongo.Database) (ts : list Mongo.task),
    let sys' := Mongo.schedule order (db, ts) in
    Mongo.rooms (fst sys') = Mongo.rooms db
    /\ List.length (snd sys') = List.length ts
    /\ exists added,
         Mongo.bookings (fst sys') = Mongo.bookings db ++ added
         /\ Forall (fun b => Mongo.Booking.status b = "confirmed") added.
Proof.
  induction order as [|i order IH]; intros db ts; simpl.
  - split; [reflexivity|]. split; [reflexivity|].
    exists []. now rewrite app_nil_r.
  - destruct (Mongo.stepAt i db ts) as [db1 ts1] eqn:E.
    pose proof (stepAt_frame i db ts) as (Hr & Hl & added1 & Hb & Hc).
    rewrite E in Hr, Hl, Hb. simpl in Hr, Hl, Hb.
    destruct (IH db1 ts1) as (Hr' & Hl' & added2 & Hb' & Hc').
    split; [congruence|]. split; [congruence|].
    exists (added1 ++ added2). split.
    + rewrite Hb', Hb. now rewrite app_assoc.
    + apply Forall_app. auto.
Qed.

Lemma stepAt_nth (i j : nat) (db : Mongo.Database) (ts : list Mongo.task) :
  nth_error (snd (Mongo.stepAt j db ts)) i
  = if Nat.eqb i j
    then option_map (fun t => snd (Mongo.step db t)) (nth_error ts i)
    else nth_error ts i.
Proof.
  revert i j. induction ts as [|t ts IH]; intros i j.
  - destruct j; simpl; destruct i; simpl; try reflexivity;
      now destruct (Nat.eqb _ _).
  - destruct j as [|j]; simpl.
    + destruct (Mongo.step db t) as [db' t'] eqn:E. simpl.
      destruct i; simpl; [now rewrite E | reflexivity].
    + destruct (Mongo.stepAt j db ts) as [db' ts'] eqn:E. simpl.
      destruct i as [|i]; simpl; [reflexivity|].
      specialize (IH i j). now rewrite E in IH.
Qed.

Lemma step_progress (db : Mongo.Database) (t : Mongo.task) :
  (callsLeft (snd (Mongo.step db t)) <= pred (callsLeft t))%nat.
Proof.
  destruct t as [req | req room | req room | res]; simpl.
  - destruct (find _ (Mongo.rooms db)); simpl; lia.
  - destruct (find _ (Mongo.bookings db)); simpl; lia.
  - lia.
  - lia.
Qed.

Lemma schedule_progress (order : list nat) (db : Mongo.Database)
    (ts : list Mongo.task) (i : nat) (t : Mongo.task) :
  nth_error ts i = Some t ->
  exists t',
    nth_error (snd (Mongo.schedule order (db, ts))) i = Some t'
    /\ (callsLeft t' <= callsLeft t - count_occ Nat.eq_dec order i)%nat
    /\ (forall res, t = Mongo.Done res -> t' = Mongo.Done res).
Proof.
  revert db ts t. induction order as [|j order IH]; intros db ts t Ht.
  - exists t. simpl. split; [exact Ht|]. split; [lia | auto].
  - simpl Mongo.schedule.
    destruct (Mongo.stepAt j db ts) as [db1 ts1] eqn:E.
    pose proof (stepAt_nth i j db ts) as N. rewrite E, Ht in N. simpl in N.
    simpl count_occ. destruct (Nat.eq_dec j i) as [->|Ne].
    + rewrite Nat.eqb_refl in N.
      destruct (IH db1 ts1 _ N) as (t' & Ht' & Hc & Hd).
      exists t'. split; [exact Ht'|].
      pose proof (step_progress db t). split; [lia|].
      intros res ->. apply (Hd res). reflexivity.
    + assert (Nat.eqb i j = false) as Eb by (apply Nat.eqb_neq; auto).
      rewrite Eb in N.
      destruct (IH db1 ts1 _ N) as (t' & Ht' & Hc & Hd).
      exists t'. auto.
Qed.

(** X21.  Every booking request is answered, whatever the other requests
    do in between: once the event loop has advanced a request three times
    it has its answer, and an answer, once given, is never changed by what
    runs afterwards. *)
Theorem X21_every_request_is_answered :
  forall (order : list nat) (db : Mongo.Database) (ts : list Mongo.task)
         (i : nat) (t : Mongo.task),
    nth_error ts i = Some t ->
    (3 <= count_occ Nat.eq_dec order i
     \/ exists res, t = Mongo.Done res)%nat ->
    exists res,
      nth_error (snd (Mongo.schedule order (db, ts))) i
      = Some (Mongo.Done res)
      /\ (forall res0, t = Mongo.Done res0 -> res = res0).
Proof.
  intros order db ts i t Ht H.
  destruct (schedule_progress order db ts i t Ht) as (t' & Ht' & Hc & Hd).
  destruct H as [H | [res0 ->]].
  - assert (callsLeft t' = 0)%nat as Z0
      by (destruct t; cbn [callsLeft] in Hc; lia).
    destruct t' as [? | ? ? | ? ? | res]; try discriminate.
    exists res. split; [exact Ht'|].
    intros res0 ->. specialize (Hd res0 eq_refl). now inversion Hd.
  - rewrite (Hd res0 eq_refl) in Ht'. exists res0. split; [exact Ht'|].
    intros r E. now inversion E.
Qed.

Lemma X21_every_request_is_answered_witness :
  exists res,
    nth_error (snd (Mongo.schedule [1; 0; 1; 1; 0; 0]%nat Scenario.inFlight))
              1
    = Some (Mongo.Done res).
Proof.
  destruct (X21_every_request_is_answered [1; 0; 1; 1; 0; 0]%nat
              Scenario.mongoDb (snd Scenario.inFlight) 1
              (Mongo.AtFindRoom
                 (Scenario.mongoRequest Scenario.bob Scenario.idB
                    "2024-06-03" "2024-06-06")))
    as (res & H & _).
  - reflexivity.
  - left. simpl. lia.
  - exists res. exact H.
Defined.

Lemma overlapFilter_spec (roomId : Mongo.ObjectId) (ci co : string)
    (b : Mongo.Booking.t) :
  Mongo.overlapFilter roomId ci co b = true <->
  Mongo.Booking.roomId b = roomId
  /\ Mongo.Booking.status b = "confirmed"
  /\ datesOverlap ci co (Mongo.Booking.checkIn b) (Mongo.Booking.checkOut b)
     = true.
Proof.
  unfold Mongo.overlapFilter, datesOverlap.
  rewrite !andb_true_iff, !String.eqb_eq. tauto.
Qed.

(** X22.  Run without another request in between, the mongoose handler
    applies the overlap predicate as it is: for a request with every field
    present and an existing room, the answer is 409 exactly when some
    confirmed booking of the room overlaps the requested range, and
    otherwise the request is accepted and one confirmed booking with the
    requested room and dates is added at the end of the ledger. *)
Theorem X22_mongoose_conflict_check :
  forall (db : Mongo.Database) (req : Mongo.CreateRequest)
         (room : Mongo.Room.t),
    Mongo.createBookingStart req = Mongo.AtFindRoom req ->
    find (fun r => String.eqb (Mongo.Room._id r)
                     (valS (Mongo.Body.roomId (Mongo.body req))))
         (Mongo.rooms db) = Some room ->
    let roomId := valS (Mongo.Body.roomId (Mongo.body req)) in
    let ci := valS (Mongo.Body.checkIn (Mongo.body req)) in
    let co := valS (Mongo.Body.checkOut (Mongo.body req)) in
    let overlapping :=
      exists b, In b (Mongo.bookings db)
                /\ Mongo.Booking.roomId b = roomId
                /\ Mongo.Booking.status b = "confirmed"
                /\ datesOverlap ci co (Mongo.Booking.checkIn b)
                     (Mongo.Booking.checkOut b) = true in
    (overlapping ->
     Mongo.createBooking db req
     = (db, Mongo.Done
              (Error 409 "Room no longer available for those dates")))
    /\ (~ overlapping ->
        exists doc,
          Mongo.createBooking db req
          = (Mongo.mkDb (Mongo.rooms db) (Mongo.bookings db ++ [doc]),
             Mongo.Done (Ok (doc, room)))
          /\ Mongo.Booking.roomId doc = roomId
          /\ Mongo.Booking.checkIn doc = ci
          /\ Mongo.Booking.checkOut doc = co
          /\ Mongo.Booking.status doc = "confirmed").
Proof.
  intros db req room Hs Hr roomId ci co overlapping.
  unfold Mongo.createBooking. rewrite Hs. cbn [Mongo.step]. rewrite Hr.
  cbn [Mongo.step]. fold roomId ci co.
  destruct (find (Mongo.overlapFilter roomId ci co) (Mongo.bookings db))
    as [hit|] eqn:F.
  - apply find_some in F as [Hin Hf]. apply overlapFilter_spec in Hf.
    split; [reflexivity|]. intros N. exfalso. apply N. now exists hit.
  - split.
    + intros (b & Hb & Hf). exfalso.
      apply (find_none _ _ F) in Hb.
      assert (Mongo.overlapFilter roomId ci co b = true) as T
        by now apply overlapFilter_spec.
      rewrite T in Hb. discriminate.
    + intros _. eexists. split; [reflexivity|]. simpl. auto.
Qed.

Lemma X22_mongoose_conflict_check_witness :
  Mongo.createBooking
    (fst (Mongo.createBooking Scenario.mongoDb
            (Scenario.mongoRequest Scenario.alice Scenario.idA
               "2024-06-01" "2024-06-05")))
    (Scenario.mongoRequest Scenario.bob Scenario.idB
       "2024-06-03" "2024-06-06")
  = (fst (Mongo.createBooking Scenario.mongoDb
            (Scenario.mongoRequest Scenario.alice Scenario.idA
               "2024-06-01" "2024-06-05")),
     Mongo.Done (Error 409 "Room no longer available for those dates")).
Proof.
  apply (proj1 (X22_mongoose_conflict_check
                  (fst (Mongo.createBooking Scenario.mongoDb
                          (Scenario.mongoRequest Scenario.alice Scenario.idA
                             "2024-06-01" "2024-06-05")))
                  (Scenario.mongoRequest Scenario.bob Scenario.idB
                     "2024-06-03" "2024-06-06")
                  Scenario.mongoRoom eq_refl eq_refl)).
  eexists. split; [left; reflexivity|]. repeat split.
Defined.

(** X23.  Booking requests handled one after the other by the mongoose
    handler keep the ledger free of double bookings, however many they are
    and whatever they ask for. *)
Theorem X23_mongoose_serial_keeps_invariant :
  forall (reqs : list Mongo.CreateRequest) (db : Mongo.Database),
    Mongo.noDoubleBooking (Mongo.bookings db) = true ->
    Mongo.noDoubleBooking
      (Mongo.bookings
         (fold_left (fun d req => fst (Mongo.createBooking d req)) reqs db))
    = true.
Proof.
  induction reqs as [|req reqs IH]; intros db H; simpl; [exact H|].
  apply IH. now apply mongo_create_keeps_invariant.
Qed.

Lemma X23_mongoose_serial_keeps_invariant_witness :
  Mongo.noDoubleBooking
    (Mongo.bookings
       (fold_left (fun d req => fst (Mongo.createBooking d req))
          [Scenario.mongoRequest Scenario.alice Scenario.idA
             "2024-06-01" "2024-06-05";
           Scenario.mongoRequest Scenario.bob Scenario.idB
             "2024-06-03" "2024-06-06"]
          Scenario.mongoDb))
  = true.
Proof.
  apply X23_mongoose_serial_keeps_invariant. reflexivity.
Defined.

(** X19.  The race, for any two requests.  Take two booking requests for
    the same room, each with every field present, whose ranges overlap each
    other and neither of which overlaps a confirmed booking of the ledger.
    If the event loop advances them in turn, both are answered with a
    success and the ledger ends with both bookings, which clash. *)
Theorem X19_interleaving_double_books :
  forall (db : Mongo.Database) (a b : Mongo.CreateRequest)
         (roomA roomB : Mongo.Room.t),
    let roomOf r := valS (Mongo.Body.roomId (Mongo.body r)) in
    let ciOf r := valS (Mongo.Body.checkIn (Mongo.body r)) in
    let coOf r := valS (Mongo.Body.checkOut (Mongo.body r)) in
    Mongo.createBookingStart a = Mongo.AtFindRoom a ->
    Mongo.createBookingStart b = Mongo.AtFindRoom b ->
    find (fun r => String.eqb (Mongo.Room._id r) (roomOf a)) (Mongo.rooms db)
    = Some roomA ->
    find (fun r => String.eqb (Mongo.Room._id r) (roomOf b)) (Mongo.rooms db)
    = Some roomB ->
    roomOf a = roomOf b ->
    find (Mongo.overlapFilter (roomOf a) (ciOf a) (coOf a)) (Mongo.bookings db)
    = None ->
    find (Mongo.overlapFilter (roomOf b) (ciOf b) (coOf b)) (Mongo.bookings db)
    = None ->
    datesOverlap (ciOf a) (coOf a) (ciOf b) (coOf b) = true ->
    exists docA docB,
      Mongo.schedule [0; 1; 0; 1; 0; 1]%nat
        (db, [Mongo.createBookingStart a; Mongo.createBookingStart b])
      = (Mongo.mkDb (Mongo.rooms db) (Mongo.bookings db ++ [docA; docB]),
         [Mongo.Done (Ok (docA, roomA)); Mongo.Done (Ok (docB, roomB))])
      /\ Mongo.clash docA docB = true
      /\ Mongo.noDoubleBooking (Mongo.bookings db ++ [docA; docB]) = false.
Proof.
  intros db a b roomA roomB roomOf ciOf coOf Sa Sb Ra Rb Same Fa Fb Ov.
  rewrite Sa, Sb.
  cbn [Mongo.schedule Mongo.stepAt Mongo.step fst snd].
  fold (roomOf a) (roomOf b). rewrite Ra.
  cbn [Mongo.schedule Mongo.stepAt Mongo.step fst snd].
  fold (roomOf b). rewrite Rb.
  cbn [Mongo.schedule Mongo.stepAt Mongo.step fst snd].
  fold (roomOf a) (ciOf a) (coOf a). rewrite Fa.
  cbn [Mongo.schedule Mongo.stepAt Mongo.step fst snd].
  fold (roomOf b) (ciOf b) (coOf b). rewrite Fb.
  cbn [Mongo.schedule Mongo.stepAt Mongo.step fst snd
       Mongo.rooms Mongo.bookings].
  do 2 eexists. split.
  - rewrite <- app_assoc. reflexivity.
  - assert (Mongo.clash
              (Mongo.Booking.mk (Mongo.newId a) (Mongo.user a) (roomOf a)
                 (ciOf a) (coOf a)
                 (valS (Mongo.Body.fullName (Mongo.body a)))
                 (valS (Mongo.Body.email (Mongo.body a)))
                 (valS (Mongo.Body.phone (Mongo.body a)))
                 (orS (Mongo.Body.specialRequests (Mongo.body a)) "")
                 "confirmed" (Mongo.now a))
              (Mongo.Booking.mk (Mongo.newId b) (Mongo.user b) (roomOf b)
                 (ciOf b) (coOf b)
                 (valS (Mongo.Body.fullName (Mongo.body b)))
                 (valS (Mongo.Body.email (Mongo.body b)))
                 (valS (Mongo.Body.phone (Mongo.body b)))
                 (orS (Mongo.Body.specialRequests (Mongo.body b)) "")
                 "confirmed" (Mongo.now b)) = true) as C.
    { unfold Mongo.clash, Mongo.confirmed. simpl.
      rewrite Same, String.eqb_refl, Ov. reflexivity. }
    split; [exact C|].
    unfold Mongo.noDoubleBooking.
    change [?x; ?y] with ([x] ++ [y]).
    rewrite app_assoc, pairwise_snoc, forallb_app. simpl forallb.
    fold (roomOf a) (ciOf a) (coOf a) (roomOf b) (ciOf b) (coOf b).
    rewrite C. simpl. now rewrite !andb_false_r.
Qed.

Lemma X19_interleaving_double_books_witness :
  exists docA docB,
    Mongo.schedule [0; 1; 0; 1; 0; 1]%nat Scenario.inFlight
    = (Mongo.mkDb (Mongo.rooms Scenario.mongoDb)
         (Mongo.bookings Scenario.mongoDb ++ [docA; docB]),
       [Mongo.Done (Ok (docA, Scenario.mongoRoom));
        Mongo.Done (Ok (docB, Scenario.mongoRoom))])
    /\ Mongo.clash docA docB = true
    /\ Mongo.noDoubleBooking
         (Mongo.bookings Scenario.mongoDb ++ [docA; docB]) = false.
Proof.
  apply (X19_interleaving_double_books Scenario.mongoDb
           (Scenario.mongoRequest Scenario.alice Scenario.idA
              "2024-06-01" "2024-06-05")
           (Scenario.mongoRequest Scenario.bob Scenario.idB
              "2024-06-03" "2024-06-06")
           Scenario.mongoRoom Scenario.mongoRoom); reflexivity.
Defined.

(** ** The cached connection *)

Lemma play_invariant {C} (P : Connection.Cached C -> Prop) :
  (forall c e, P c -> P (Connection.apply c e)) ->
  forall es c, P c -> P (Connection.play c es).
Proof.
  intros Step es. unfold Connection.play.
  induction es as [|e es IH]; intros c H; simpl; auto.
Qed.

(** The state of the cache is sound: the counter is 0 or 1, it is 1 exactly
    when a promise is cached, and a cached connection is the one the
    promise was fulfilled with. *)
Lemma apply_sound {C} (c : Connection.Cached C) (e : Connection.event C) :
  ((Connection.connects c <= 1)%nat
   /\ (Connection.connects c = 1%nat <-> Connection.promise c <> None)
   /\ (forall x, Connection.conn c = Some x ->
                 Connection.promise c = Some (Connection.Fulfilled x))) ->
  (Connection.connects (Connection.apply c e) <= 1)%nat
  /\ (Connection.connects (Connection.apply c e) = 1%nat <->
      Connection.promise (Connection.apply c e) <> None)
  /\ (forall x, Connection.conn (Connection.apply c e) = Some x ->
                Connection.promise (Connection.apply c e)
                = Some (Connection.Fulfilled x)).
Proof.
  destruct c as [[x|] [[|y|err]|] k]; destruct e as [|[r|r]|]; simpl;
    intros (H1 & H2 & H3); repeat split; intros;
    try discriminate; try lia; try congruence;
    try (apply H2; discriminate); try (now apply H3);
    try (specialize (H3 _ eq_refl); discriminate).
  all: try (assert (k = 1%nat) by (apply H2; discriminate); lia).
  all: try (destruct (Nat.eq_dec k 1) as [K|K];
            [apply H2 in K; now contradiction K | lia]).
Qed.

Lemma apply_connects {C} (c : Connection.Cached C) (e : Connection.event C) :
  (Connection.connects c = 1%nat <-> Connection.promise c <> None) ->
  (Connection.connects c <= 1)%nat ->
  (forall x, Connection.conn c = Some x ->
             Connection.promise c = Some (Connection.Fulfilled x)) ->
  (e = Connection.Enter -> Connection.connects (Connection.apply c e) = 1%nat)
  /\ (e <> Connection.Enter ->
      Connection.connects (Connection.apply c e) = Connection.connects c)
  /\ (Connection.connects c <= Connection.connects (Connection.apply c e))%nat.
Proof.
  destruct c as [[x|] [[|y|err]|] k]; destruct e as [|[r|r]|]; simpl;
    intros H2 H1 H3; repeat split; intros; try congruence; try lia;
    try (apply H2; discriminate);
    try (specialize (H3 _ eq_refl); discriminate).
  all: try (destruct (Nat.eq_dec k 1) as [K|K];
            [apply H2 in K; now contradiction K | lia]).
Qed.

(** X24.  However calls of [dbConnect], settlements of the promise and
    resumptions follow one another, [dbConnect] itself calls
    [mongoose.connect] at most once: exactly once as soon as it has been
    called, never before, and never again for a later caller.  A cached
    connection is always the one the promise was fulfilled with.  (This is
    about the calls that [dbConnect] makes; the start-up code of the
    mongoose rendition makes a call of its own besides.) *)
Theorem X24_connects_at_most_once :
  forall (C : Type) (es : list (Connection.event C)),
    let c := Connection.play Connection.initial es in
    (Connection.connects c <= 1)%nat
    /\ (Connection.connects c = 1%nat <-> In Connection.Enter es)
    /\ (forall x, Connection.conn c = Some x ->
                  Connection.promise c = Some (Connection.Fulfilled x)).
Proof.
  intros C es.
  assert (forall es (c : Connection.Cached C),
            ((Connection.connects c <= 1)%nat
             /\ (Connection.connects c = 1%nat <->
                 Connection.promise c <> None)
             /\ (forall x, Connection.conn c = Some x ->
                           Connection.promise c
                           = Some (Connection.Fulfilled x))) ->
            ((Connection.connects (Connection.play c es) <= 1)%nat
             /\ (Connection.connects (Connection.play c es) = 1%nat <->
                 Connection.promise (Connection.play c es) <> None)
             /\ (forall x, Connection.conn (Connection.play c es) = Some x ->
                           Connection.promise (Connection.play c es)
                           = Some (Connection.Fulfilled x)))
            /\ (Connection.connects (Connection.play c es) = 1%nat <->
                Connection.connects c = 1%nat \/ In Connection.Enter es))
    as G.
  { clear es. induction es as [|e es IH]; intros c S.
    - simpl. split; [exact S | tauto].
    - change (Connection.play c (e :: es))
        with (Connection.play (Connection.apply c e) es).
      destruct (IH _ (apply_sound c e S)) as [S' Hc]. split; [exact S'|].
      rewrite Hc. pose proof (apply_sound c e S) as (T1 & _).
      destruct S as (S1 & S2 & S3).
      destruct (apply_connects c e S2 S1 S3) as (A & B & M). simpl.
      split.
      + intros [H|H]; [|tauto].
        assert (e = Connection.Enter \/ e <> Connection.Enter) as [E|E].
        { destruct e; [now left | right; discriminate | right; discriminate]. }
        * right. left. now symmetry.
        * left. rewrite <- (B E). exact H.
      + intros [H|[H|H]]; [left; lia | left; now apply A | now right]. }
  destruct (G es Connection.initial) as [(S1 & _ & S3) Hc].
  { simpl. repeat split; try discriminate; try lia.
    intros H. now contradiction H. }
  intros c. split; [exact S1|]. split; [|exact S3].
  unfold c. rewrite Hc. simpl. split; [intros [H|H]; [discriminate|exact H]|auto].
Qed.

(** X25.  A connection that failed is never tried again.  Once the cached
    promise is rejected nothing changes the cache any more: every later
    call of [dbConnect] waits on that promise and then throws its error,
    and [dbConnect] does not call [mongoose.connect] a second time. *)
Theorem X25_failed_connection_is_final :
  forall (C : Type) (cached : Connection.Cached C) (err : string)
         (es : list (Connection.event C)),
    Connection.conn cached = None ->
    Connection.promise cached = Some (Connection.Rejected err) ->
    Connection.play cached es = cached
    /\ Connection.enter cached = (cached, Connection.Awaiting)
    /\ Connection.resume cached = (cached, Connection.Threw err).
Proof.
  intros C cached err es Hc Hp.
  assert (forall e, Connection.apply cached e = cached) as Fix.
  { intros e. destruct cached as [cn pr k]. simpl in Hc, Hp. subst.
    destruct e as [|[r|r]|]; reflexivity. }
  split.
  - unfold Connection.play. induction es as [|e es IH]; simpl;
      [reflexivity | now rewrite Fix].
  - destruct cached as [cn pr k]. simpl in Hc, Hp. subst. split; reflexivity.
Qed.

Lemma X25_failed_connection_is_final_witness :
  Connection.resume
    (Connection.play (@Connection.initial string)
       [Connection.Enter; Connection.Settle (inr "ECONNREFUSED");
        Connection.Resume; Connection.Enter])
  = (Connection.play (@Connection.initial string)
       [Connection.Enter; Connection.Settle (inr "ECONNREFUSED")],
     Connection.Threw "ECONNREFUSED").
Proof.
  destruct (X25_failed_connection_is_final string
              (Connection.play Connection.initial
                 [Connection.Enter; Connection.Settle (inr "ECONNREFUSED")])
              "ECONNREFUSED" [Connection.Resume; Connection.Enter]
              eq_refl eq_refl) as (Hplay & _ & Hres).
  change (Connection.play (@Connection.initial string)
            [Connection.Enter; Connection.Settle (inr "ECONNREFUSED");
             Connection.Resume; Connection.Enter])
    with (Connection.play
            (Connection.play (@Connection.initial string)
               [Connection.Enter; Connection.Settle (inr "ECONNREFUSED")])
            [Connection.Resume; Connection.Enter]).
  rewrite Hplay. exact Hres.
Defined.

(** X26.  A connection that succeeded is reused.  Once a connection is
    cached nothing changes the cache any more, and every later call of
    [dbConnect] returns that connection at once, without waiting and
    without a call of [mongoose.connect] by [dbConnect]. *)
Theorem X26_connection_is_reused :
  forall (C : Type) (cached : Connection.Cached C) (x : C)
         (es : list (Connection.event C)),
    Connection.conn cached = Some x ->
    Connection.promise cached = Some (Connection.Fulfilled x) ->
    Connection.play cached es = cached
    /\ Connection.enter cached = (cached, Connection.Returned x).
Proof.
  intros C cached x es Hc Hp.
  assert (forall e, Connection.apply cached e = cached) as Fix.
  { intros e. destruct cached as [cn pr k]. simpl in Hc, Hp. subst.
    destruct e as [|[r|r]|]; reflexivity. }
  split.
  - unfold Connection.play. induction es as [|e es IH]; simpl;
      [reflexivity | now rewrite Fix].
  - destruct cached as [cn pr k]. simpl in Hc, Hp. subst. reflexivity.
Qed.

Lemma X26_connection_is_reused_witness :
  Connection.enter
    (Connection.play (@Connection.initial string)
       [Connection.Enter; Connection.Settle (inl "conn#1");
        Connection.Resume])
  = (Connection.play (@Connection.initial string)
       [Connection.Enter; Connection.Settle (inl "conn#1");
        Connection.Resume],
     Connection.Returned "conn#1"%string).
Proof.
  apply (X26_connection_is_reused string
           (Connection.play Connection.initial
              [Connection.Enter; Connection.Settle (inl "conn#1");
               Connection.Resume])
           "conn#1" [] eq_refl eq_refl).
Defined.

(** ** More on the overlap predicate and the conflict check *)

Lemma lex_le_total (s t : string) : lex_le s t \/ lex_le t s.
Proof.
  destruct (String.leb_total s t) as [H|H]; apply leb_lex_le in H; auto.
Qed.

Lemma lex_le_refl (s : string) : lex_le s s.
Proof. apply leb_lex_le. apply leb_refl. Qed.

(** X27.  For two ranges that are not empty, [datesOverlap] says whether
    they have a day in common: it is true exactly when some day lies from
    the start of each range on and before its end.  For any ranges at all,
    a common day makes it true. *)
Theorem X27_overlap_is_a_common_day :
  forall aStart aEnd bStart bEnd : string,
    let common :=
      exists day, lex_le aStart day /\ ~ lex_le aEnd day
                  /\ lex_le bStart day /\ ~ lex_le bEnd day in
    (common -> datesOverlap aStart aEnd bStart bEnd = true)
    /\ (~ lex_le aEnd aStart -> ~ lex_le bEnd bStart ->
        datesOverlap aStart aEnd bStart bEnd = true -> common).
Proof.
  intros a b c d common. split.
  - intros (x & Hax & Hxb & Hcx & Hxd).
    destruct (datesOverlap a b c d) eqn:E; [reflexivity|].
    exfalso. apply datesOverlap_false in E as [L|L]; apply leb_lex_le in L.
    + apply Hxb. eapply lex_le_trans; eauto.
    + apply Hxd. eapply lex_le_trans; eauto.
  - intros Nab Ncd H.
    assert (~ lex_le b c) as Nbc.
    { intros L. apply leb_lex_le in L. unfold datesOverlap in H.
      rewrite L in H. discriminate. }
    assert (~ lex_le d a) as Nda.
    { intros L. apply leb_lex_le in L. unfold datesOverlap in H.
      rewrite L, orb_true_r in H. discriminate. }
    destruct (lex_le_total a c) as [L|L].
    + exists c. repeat split; auto. apply lex_le_refl.
    + exists a. repeat split; auto. apply lex_le_refl.
Qed.

(** X28.  On a range that runs forward the better-sqlite3 handler never
    refuses wrongly: when a request whose check-out is not before its
    check-in is answered 409, some confirmed booking of the requested room
    does overlap the requested range. *)
Theorem X28_no_false_conflict_forward :
  forall (db : Sqlite.Database) (user : Z) (now : string)
         (body : Sqlite.Body.t),
    lex_le (valS (Sqlite.Body.checkIn body))
           (valS (Sqlite.Body.checkOut body)) ->
    isConflict (snd (Sqlite.createBooking db user now body)) = true ->
    (overlapCount db (valZ (Sqlite.Body.roomId body))
       (valS (Sqlite.Body.checkIn body))
       (valS (Sqlite.Body.checkOut body)) > 0)%nat.
Proof.
  intros db user now body Fwd H. unfold Sqlite.createBooking in H.
  destruct (falsyZ _ || _ || _ || _ || _ || _); [discriminate|].
  destruct (find _ (Sqlite.rooms db)); [|discriminate].
  destruct (_ >? 0) eqn:C;
    [|destruct (existsb _ (Sqlite.users db)); discriminate].
  apply filter_nonempty in C as (b & Hb & Cb).
  apply conflictRow_inside in Cb as (Hr & Hs & Hin & Hout).
  unfold overlapCount.
  assert (exists x, In x (Sqlite.bookings db)
            /\ (Sqlite.Booking.roomId x =? valZ (Sqlite.Body.roomId body))
               && Sqlite.confirmed x
               && datesOverlap (valS (Sqlite.Body.checkIn body))
                    (valS (Sqlite.Body.checkOut body))
                    (Sqlite.Booking.checkIn x) (Sqlite.Booking.checkOut x)
               = true) as E.
  { exists b. split; [exact Hb|].
    apply andb_true_iff. split;
      [apply andb_true_iff; split;
       [now apply Z.eqb_eq | now apply String.eqb_eq]|].
    destruct (datesOverlap _ _ _ _) eqn:D; [reflexivity|]. exfalso.
    apply datesOverlap_false in D as [L|L]; apply leb_lex_le in L.
    - apply Hin. eapply lex_le_trans; eauto.
    - apply Hout. eapply lex_le_trans; eauto. }
  apply filter_nonempty in E. rewrite Z.gtb_ltb in E. apply Z.ltb_lt in E.
  lia.
Qed.

Lemma X28_no_false_conflict_forward_witness :
  (overlapCount Scenario.booked 1 "2024-06-02" "2024-06-04" > 0)%nat.
Proof.
  apply (X28_no_false_conflict_forward Scenario.booked 9 Scenario.clock
           (Scenario.body 1 "2024-06-02" "2024-06-04")).
  - apply leb_lex_le. reflexivity.
  - reflexivity.
Defined.

(** X29.  A booking request that is accepted has written exactly one row,
    at the end of the ledger: confirmed, owned by the caller, with the next
    id.  The answer carries that very row and the room with the requested
    id, and the id counter has moved to the id of the row. *)
Theorem X29_accepted_booking_is_returned :
  forall (db db' : Sqlite.Database) (user : Z) (now : string)
         (body : Sqlite.Body.t) (booking : option Sqlite.Booking.t)
         (room : Sqlite.Room.t),
    keyed db ->
    Sqlite.createBooking db user now body = (db', Ok (booking, room)) ->
    exists row,
      booking = Some row
      /\ Sqlite.bookings db' = Sqlite.bookings db ++ [row]
      /\ Sqlite.Booking.status row = "confirmed"
      /\ Sqlite.Booking.userId row = user
      /\ Sqlite.Booking.createdAt row = now
      /\ Sqlite.Booking.id row = Sqlite.lastBookingId db + 1
      /\ Sqlite.lastBookingId db' = Sqlite.Booking.id row
      /\ (forall b, In b (Sqlite.bookings db) ->
                    Sqlite.Booking.id b <> Sqlite.Booking.id row)
      /\ In room (Sqlite.rooms db)
      /\ Sqlite.Room.id room = Sqlite.Booking.roomId row.
Proof.
  intros db db' user now body booking room K H.
  destruct (createBooking_ok_inserts _ _ _ _ _ _ _ K H)
    as (Hb & Hs & Hrow & Hin & Hid & _ & _).
  exists (newRow db user now body).
  destruct (createBooking_cases db user now body)
    as [[_ E] | (room' & _ & _ & F1 & _ & _ & _ & _ & _ & E)].
  - rewrite H in E. discriminate.
  - rewrite H in E. inversion E; subst. simpl.
    repeat split; auto.
    + intros b Hb'. destruct K as [_ K]. rewrite Forall_forall in K.
      specialize (K b Hb'). lia.
    + destruct (falsyZ_false _ F1) as [Ev _]. rewrite Ev in Hid.
      now inversion Hid.
Qed.

Lemma X29_accepted_booking_is_returned_witness :
  exists row,
    Sqlite.bookings Scenario.booked = Sqlite.bookings Scenario.registered ++ [row]
    /\ Sqlite.Booking.id row = 1.
Proof.
  destruct (X29_accepted_booking_is_returned Scenario.registered Scenario.booked
              7 Scenario.clock (Scenario.body 1 "2024-06-01" "2024-06-05")
              (Some (newRow Scenario.registered 7 Scenario.clock
                       (Scenario.body 1 "2024-06-01" "2024-06-05")))
              (Sqlite.Room.mk 1 "Standard Room"
                 "Cozy room with queen bed, city view, workstation." 79 2
                 (Some "https://images.unsplash.com/photo-1560066984-138dadb4c035?q=80&w=1200&auto=format&fit=crop")))
    as (row & _ & Hb & _ & _ & _ & Hid & _).
  - split; constructor.
  - reflexivity.
  - exists row. split; [exact Hb | exact Hid].
Defined.

(** X30.  A cancellation can never bring about a double booking.  If no two
    confirmed bookings of a room overlap, this is still so after a
    cancellation request on the better-sqlite3 ledger, whatever its
    outcome, and after any step of a mongoose cancellation, whatever runs
    around it. *)
Theorem X30_cancel_keeps_invariant :
  (forall (db : Sqlite.Database) (user : Z) (now idParam : string),
     Sqlite.noDoubleBooking (Sqlite.bookings db) = true ->
     Sqlite.noDoubleBooking
       (Sqlite.bookings (fst (Sqlite.cancel db user now idParam))) = true)
  /\ (forall (db : Mongo.Database) (t : Mongo.cancelTask),
        Mongo.noDoubleBooking (Mongo.bookings db) = true ->
        Mongo.noDoubleBooking
          (Mongo.bookings (fst (Mongo.cancelStep db t))) = true).
Proof.
  split.
  - exact cancel_keeps_invariant.
  - intros db t H. destruct t as [req | req booking | res]; simpl.
    + destruct (find _ (Mongo.bookings db)) as [b|]; [|exact H].
      destruct (negb _); [exact H|]. destruct (negb _); [exact H|].
      destruct (String.leb _ _); exact H.
    + apply pairwise_map; [|exact H].
      intros a b. rewrite !negb_true_iff. unfold Mongo.clash.
      intros Cl.
      destruct (String.eqb (Mongo.Booking._id a) (Mongo.Booking._id booking)),
               (String.eqb (Mongo.Booking._id b) (Mongo.Booking._id booking));
        simpl; rewrite ?andb_false_r; auto.
    + exact H.
Qed.

Lemma X30_cancel_keeps_invariant_witness :
  Sqlite.noDoubleBooking
    (Sqlite.bookings (fst (Sqlite.cancel Scenario.booked 7 Scenario.clock "1")))
  = true.
Proof.
  apply (proj1 X30_cancel_keeps_invariant Scenario.booked 7 Scenario.clock "1").
  reflexivity.
Defined.
